(** * bentoml.sklearn: the scikit-learn adapter of BentoML

    A shallow embedding of [src/bentoml/sklearn.py]: the adapter functions
    [_get_model_info], [load], [save], [load_runner] and the class
    [_SklearnRunner], over a small model of the Python run time they need
    (exceptions, name resolution in the module's namespace, the [with]
    statement, list indexing, [round] on a float) and of the collaborators
    they call (the model store, joblib). *)

From Stdlib Require Import ZArith QArith Qabs Lia List Ascii String.
From Stdlib Require Import Floats.SpecFloat.
From stdpp Require Import gmap strings pretty.
Import ListNotations.

Open Scope string_scope.
Open Scope Z_scope.

(** ** The Python run time *)

Module Py.

(** Exceptions the adapter can meet, by class. *)
Inductive exn : Type :=
| NameError (name : string)
| IndexError
| KeyError (key : string)
| AttributeError (attr : string)
| TypeError
| ValueError
| OverflowError
| FileNotFoundError (path : string)
| PicklingError
| UnpicklingError
| NotFound (tag : string)
| BentoMLException (msg : string).

Inductive result (A : Type) : Type :=
| Ok (a : A)
| Raise (e : exn).
Arguments Ok {A} a.
Arguments Raise {A} e.

(** Code that runs against a mutable world [W]: effects made before an
    exception stay made. *)
Definition M (W A : Type) : Type := W -> result A * W.

Definition ret {W A} (a : A) : M W A := fun w => (Ok a, w).
Definition raise {W A} (e : exn) : M W A := fun w => (Raise e, w).
Definition bind {W A B} (m : M W A) (k : A -> M W B) : M W B :=
  fun w => match m w with
           | (Ok a, w1) => k a w1
           | (Raise e, w1) => (Raise e, w1)
           end.
Definition lift {W A} (r : result A) : M W A := fun w => (r, w).

(** Objects a name can be bound to, as far as the adapter looks at them. *)
Inductive pyobj : Type :=
| ObjModule (qualname : string)
| ObjMember (module name : string)
| ObjStr (s : string).

(** Top-level statements of a module, by what they bind. *)
Inductive stmt : Type :=
| Import (dotted : list string) (asname : option string)
| FromImport (module : string) (names : list string)
| Bind (name : string).

Definition dotted_name (dotted : list string) : string :=
  String.concat "." dotted.

(** [import a.b.c] binds [a]; [import a.b.c as x] binds [x] to [a.b.c]
    and leaves [a] unbound; [from m import x, y] binds [x] and [y]. *)
Definition binds (s : stmt) : list (string * pyobj) :=
  match s with
  | Import dotted (Some x) => [(x, ObjModule (dotted_name dotted))]
  | Import (top :: _) None => [(top, ObjModule top)]
  | Import [] None => []
  | FromImport m names => map (fun n => (n, ObjMember m n)) names
  | Bind n => [(n, ObjMember "" n)]
  end.

Fixpoint assoc (n : string) (env : list (string * pyobj)) : option pyobj :=
  match env with
  | [] => None
  | (k, v) :: env' => if String.eqb n k then Some v else assoc n env'
  end.

(** Later bindings shadow earlier ones. *)
Definition namespace (body : list stmt) : list (string * pyobj) :=
  rev (flat_map binds body).

(** The names of the [builtins] module: functions, constants, exceptions. *)
Definition builtins : list string :=
  [ "abs"; "aiter"; "all"; "anext"; "any"; "ascii"; "bin"; "bool";
    "breakpoint"; "bytearray"; "bytes"; "callable"; "chr"; "classmethod";
    "compile"; "complex"; "delattr"; "dict"; "dir"; "divmod"; "enumerate";
    "eval"; "exec"; "filter"; "float"; "format"; "frozenset"; "getattr";
    "globals"; "hasattr"; "hash"; "help"; "hex"; "id"; "input"; "int";
    "isinstance"; "issubclass"; "iter"; "len"; "list"; "locals"; "map";
    "max"; "memoryview"; "min"; "next"; "object"; "oct"; "open"; "ord";
    "pow"; "print"; "property"; "range"; "repr"; "reversed"; "round";
    "set"; "setattr"; "slice"; "sorted"; "staticmethod"; "str"; "sum";
    "super"; "tuple"; "type"; "vars"; "zip"; "__import__";
    "copyright"; "credits"; "license"; "exit"; "quit";
    "True"; "False"; "None"; "NotImplemented"; "Ellipsis"; "__debug__";
    "BaseException"; "BaseExceptionGroup"; "Exception"; "ExceptionGroup";
    "GeneratorExit"; "KeyboardInterrupt"; "SystemExit"; "ArithmeticError";
    "AssertionError"; "AttributeError"; "BufferError"; "EOFError";
    "ImportError"; "LookupError"; "MemoryError"; "NameError"; "OSError";
    "ReferenceError"; "RuntimeError"; "StopAsyncIteration"; "StopIteration";
    "SyntaxError"; "SystemError"; "TypeError"; "ValueError"; "Warning";
    "FloatingPointError"; "OverflowError"; "ZeroDivisionError";
    "BytesWarning"; "DeprecationWarning"; "EncodingWarning";
    "FutureWarning"; "ImportWarning"; "PendingDeprecationWarning";
    "ResourceWarning"; "RuntimeWarning"; "SyntaxWarning"; "UnicodeWarning";
    "UserWarning"; "BlockingIOError"; "ChildProcessError";
    "ConnectionError"; "FileExistsError"; "FileNotFoundError";
    "InterruptedError"; "IsADirectoryError"; "NotADirectoryError";
    "PermissionError"; "ProcessLookupError"; "TimeoutError";
    "IndentationError"; "IndexError"; "KeyError"; "ModuleNotFoundError";
    "NotImplementedError"; "RecursionError"; "UnboundLocalError";
    "UnicodeError"; "BrokenPipeError"; "ConnectionAbortedError";
    "ConnectionRefusedError"; "ConnectionResetError"; "TabError";
    "UnicodeDecodeError"; "UnicodeEncodeError"; "UnicodeTranslateError";
    "EnvironmentError"; "IOError" ].

(** LOAD_GLOBAL: the module's globals, then the built-ins. *)
Definition resolve (globals : list (string * pyobj)) (n : string)
  : result pyobj :=
  match assoc n globals with
  | Some o => Ok o
  | None =>
      if existsb (String.eqb n) builtins
      then Ok (ObjMember "builtins" n)
      else Raise (NameError n)
  end.

(** [l[i]] on a list: negative indices count from the end. *)
Definition getitem {A} (l : list A) (i : Z) : result A :=
  let len := Z.of_nat (length l) in
  let j := if i <? 0 then i + len else i in
  if (j <? 0) || (len <=? j) then Raise IndexError
  else match nth_error l (Z.to_nat j) with
       | Some a => Ok a
       | None => Raise IndexError
       end.

(** [posixpath.join] of two components. *)
Fixpoint ends_with_sep (s : string) : bool :=
  match s with
  | EmptyString => false
  | String c EmptyString => Ascii.eqb c "/"%char
  | String _ s' => ends_with_sep s'
  end.

Definition starts_with_sep (s : string) : bool :=
  match s with
  | String c _ => Ascii.eqb c "/"%char
  | EmptyString => false
  end.

Definition os_path_join (a b : string) : string :=
  if starts_with_sep b then b
  else if String.eqb a "" || ends_with_sep a then a ++ b
  else a ++ "/" ++ b.

(** [round(x)] on a float, one argument: the nearest integer, a tie going
    to the even one; the float is (-1)^s * m * 2^e. *)
Definition round_half_even (m : positive) (e : Z) : Z :=
  if 0 <=? e then Z.pos m * 2 ^ e
  else
    let d := 2 ^ (- e) in
    let q := Z.pos m / d in
    let r := Z.pos m mod d in
    match 2 * r ?= d with
    | Lt => q
    | Gt => q + 1
    | Eq => if Z.even q then q else q + 1
    end.

Definition round (x : spec_float) : result Z :=
  match x with
  | S754_zero _ => Ok 0
  | S754_infinity _ => Raise OverflowError
  | S754_nan => Raise ValueError
  | S754_finite s m e =>
      let n := round_half_even m e in
      Ok (if s then - n else n)
  end.

(** [int(n)] on an int. *)
Definition int (n : Z) : Z := n.

(** The value of a finite float, as a rational: m * 2^e, signed. *)
Definition magnitude (m : positive) (e : Z) : Q :=
  if 0 <=? e then inject_Z (Z.pos m * 2 ^ e)
  else Qmake (Z.pos m) (Z.to_pos (2 ^ (- e))).

Definition float_value (x : spec_float) : option Q :=
  match x with
  | S754_zero _ => Some 0%Q
  | S754_finite s m e =>
      Some (if s then Qopp (magnitude m e) else magnitude m e)
  | _ => None
  end.

Definition is_finite (x : spec_float) : bool :=
  match x with
  | S754_zero _ | S754_finite _ _ _ => true
  | _ => false
  end.

(** A context manager: what [__enter__] yields, and [__exit__], which is
    told the exception in flight and answers whether to swallow it. *)
Record context_manager (W V : Type) : Type := {
  cm_enter : M W V;
  cm_exit : V -> option exn -> M W bool
}.
Arguments cm_enter {W V} _.
Arguments cm_exit {W V} _ _ _.

(** [with cm as v: return body(v)].  [None] is the implicit [None] a
    function returns when [__exit__] swallows the exception and control
    falls off its end. *)
Definition with_return {W V A} (cm : context_manager W V)
    (body : V -> M W A) : M W (option A) :=
  fun w =>
    match cm_enter cm w with
    | (Raise e, w1) => (Raise e, w1)
    | (Ok v, w1) =>
        match body v w1 with
        | (Ok a, w2) =>
            match cm_exit cm v None w2 with
            | (Ok _, w3) => (Ok (Some a), w3)
            | (Raise e, w3) => (Raise e, w3)
            end
        | (Raise e, w2) =>
            match cm_exit cm v (Some e) w2 with
            | (Ok true, w3) => (Ok None, w3)
            | (Ok false, w3) => (Raise e, w3)
            | (Raise e', w3) => (Raise e', w3)
            end
        end
    end.

End Py.

Import Py.

Declare Scope py_scope.
Delimit Scope py_scope with py.
Notation "x <- m ;; k" := (bind m (fun x => k))
  (at level 62, m at next level, right associativity) : py_scope.
Open Scope py_scope.

(** ** The adapter and its collaborators *)

Section Adapter.

(** Rows of a batch and the predictions made for them, the caller's
    metadata and batching options: the adapter never looks inside. *)
Context {Row Label Metadata BatchOptions : Type}.

(** [SAVE_NAMESPACE] of [bentoml._internal.models], which the adapter
    imports. *)
Variable SAVE_NAMESPACE : string.

(** [__version__] of an installed package, by its qualified name. *)
Variable package_version : string -> string.

(** Where the model store keeps the artifact of a tag. *)
Variable model_path : string -> string.

(** The duck-typed model: anything with a [predict]; whether the codec
    can serialize it is a property of the object, and so is what pickle
    raises when it cannot (PicklingError for a local function, TypeError
    for a lock). *)
Record Predictor : Type := {
  predict : list Row -> result (list Label);
  picklable : bool;
  dump_error : exn
}.

(** What a file holds: a serialized model, or the bytes a failed
    serialization left behind. *)
Inductive Blob : Type :=
| Pickled (m : Predictor)
| Truncated.

Record ModelInfo : Type := {
  info_tag : string;
  info_module : string;
  info_path : string;
  info_metadata : option Metadata;
  info_context : gmap string string
}.

(** What the adapter's calls leave behind, in order. *)
Inductive event : Type :=
| EvDump (filename : string)
| EvLoad (filename : string)
| EvPredict (rows : nat) (active : option (string * Z)).

(** The world the adapter runs against, as the calling thread sees it:
    the file system, the model store's committed tags, joblib's active
    backend and worker count (the attribute [backend_and_jobs] of its
    thread-local [_backend], absent when [None]), and the calls made so
    far.  [Process], further down, keeps a backend for every thread. *)
Record World : Type := {
  fs : gmap string Blob;
  model_store : gmap string ModelInfo;
  backend_and_jobs : option (string * Z);
  trace : list event
}.

Definition set_fs (f : gmap string Blob) (w : World) : World :=
  {| fs := f; model_store := model_store w;
     backend_and_jobs := backend_and_jobs w; trace := trace w |}.
Definition set_model_store (s : gmap string ModelInfo) (w : World) : World :=
  {| fs := fs w; model_store := s;
     backend_and_jobs := backend_and_jobs w; trace := trace w |}.
Definition set_backend_and_jobs (b : option (string * Z)) (w : World) : World :=
  {| fs := fs w; model_store := model_store w;
     backend_and_jobs := b; trace := trace w |}.
Definition log (ev : event) (w : World) : World :=
  {| fs := fs w; model_store := model_store w;
     backend_and_jobs := backend_and_jobs w; trace := (trace w ++ [ev])%list |}.

(** *** The module's namespace *)

Definition __name__ : string := "bentoml.sklearn".

(** The statements of [sklearn.py] that bind a name when the module is
    imported, in order.  The imports of lines 15 and 16 succeed (otherwise
    the module raises MissingDependencyException and there is no adapter);
    the block under [if t.TYPE_CHECKING:] does not run. *)
Definition module_body : list stmt :=
  [ Import ["os"] None;
    Import ["typing"] (Some "t");
    Import ["numpy"] (Some "np");
    FromImport "simple_di" ["Provide"; "inject"];
    FromImport "._internal.configuration.containers" ["BentoMLContainer"];
    FromImport "._internal.models" ["MODEL_EXT"; "SAVE_NAMESPACE"];
    FromImport "._internal.service.runner" ["Runner"];
    FromImport ".exceptions" ["BentoMLException"; "MissingDependencyException"];
    Bind "_MT";
    Import ["sklearn"; "externals"; "joblib"] (Some "joblib");
    FromImport "joblib" ["parallel_backend"];
    Bind "_get_model_info";
    Bind "load";
    Bind "save";
    Bind "_SklearnRunner";
    Bind "load_runner" ].

(** What every module has before its body runs. *)
Definition module_attributes : list (string * pyobj) :=
  [ ("__name__", ObjStr __name__);
    ("__doc__", ObjMember "builtins" "None");
    ("__package__", ObjStr "bentoml");
    ("__file__", ObjMember __name__ "__file__");
    ("__cached__", ObjMember __name__ "__cached__");
    ("__loader__", ObjMember __name__ "__loader__");
    ("__spec__", ObjMember __name__ "__spec__");
    ("__builtins__", ObjModule "builtins") ].

Definition globals : list (string * pyobj) :=
  namespace module_body ++ module_attributes.

(** Reading a global inside a function of the module. *)
Definition load_global (n : string) : M World pyobj :=
  lift (resolve globals n).

(** [o.__version__]. *)
Definition version_of (o : pyobj) : result string :=
  match o with
  | ObjModule q => Ok (package_version q)
  | _ => Raise (AttributeError "__version__")
  end.

(** A file name handed to the codec has to be a string. *)
Definition as_filename (o : pyobj) : result string :=
  match o with
  | ObjStr s => Ok s
  | _ => Raise TypeError
  end.

(** *** joblib: the artifact codec and the worker-budget scope *)

(** joblib is a library outside the repository.  Its codec is taken by
    the contract the spec gives for it, "dump(model, path), load(path) ->
    model; both may fail"; its [parallel_backend] is the class of joblib
    0.12 and later, whose constructor activates the backend. *)

(** [joblib.dump(model, filename)]; on a model that cannot be serialized
    it passes on what pickle raises, leaving what it had written. *)
Definition joblib_dump (m : Predictor) (filename : string) : M World unit :=
  fun w =>
    let w' := log (EvDump filename) w in
    if picklable m
    then (Ok tt, set_fs (<[filename := Pickled m]> (fs w')) w')
    else (Raise (dump_error m),
          set_fs (<[filename := Truncated]> (fs w')) w').

(** [joblib.load(filename)]. *)
Definition joblib_load (filename : string) : M World Predictor :=
  fun w =>
    let w' := log (EvLoad filename) w in
    match fs w !! filename with
    | None => (Raise (FileNotFoundError filename), w')
    | Some (Pickled m) => (Ok m, w')
    | Some Truncated => (Raise UnpicklingError, w')
    end.

(** The object [joblib.parallel_backend(...)] builds. *)
Record parallel_backend_obj : Type := {
  old_backend_and_jobs : option (string * Z);
  new_backend_and_jobs : string * Z
}.

Definition BACKENDS : list string :=
  [ "multiprocessing"; "threading"; "sequential"; "loky" ].

(** [parallel_backend(backend, n_jobs=n)]: the constructor remembers the
    backend that was active and activates the new one at once. *)
Definition parallel_backend (backend : string) (n_jobs : Z)
  : M World parallel_backend_obj :=
  fun w =>
    if existsb (String.eqb backend) BACKENDS
    then (Ok {| old_backend_and_jobs := backend_and_jobs w;
                new_backend_and_jobs := (backend, n_jobs) |},
          set_backend_and_jobs (Some (backend, n_jobs)) w)
    else (Raise (KeyError backend), w).

(** [unregister]: put back what was active when the object was built. *)
Definition unregister (pb : parallel_backend_obj) : M World unit :=
  fun w =>
    match old_backend_and_jobs pb with
    | None =>
        match backend_and_jobs w with
        | Some _ => (Ok tt, set_backend_and_jobs None w)
        | None => (Ok tt, w)
        end
    | Some old => (Ok tt, set_backend_and_jobs (Some old) w)
    end.

(** [__enter__] hands out the pair and touches nothing; [__exit__]
    unregisters and returns [None], so an exception goes on. *)
Definition parallel_backend_cm (pb : parallel_backend_obj)
  : context_manager World (string * Z) :=
  {| cm_enter := ret (new_backend_and_jobs pb);
     cm_exit := fun _ _ => _ <- unregister pb ;; ret false |}.

(** [m.predict(x)]: what the model computes, and a record that it ran and
    under which active backend. *)
Definition call_predict (m : Predictor) (x : list Row) : M World (list Label) :=
  fun w => (predict m x, log (EvPredict (length x) (backend_and_jobs w)) w).

(** *** The model store *)

(** Modelled from the spec: [ModelStore.get] of
    [bentoml._internal.models.store], "resolve(tag) -> ModelInfo (fails
    with NotFound if tag unknown)". *)
Definition model_store_get (tag : string) : M World ModelInfo :=
  fun w =>
    match model_store w !! tag with
    | Some i => (Ok i, w)
    | None => (Raise (NotFound tag), w)
    end.

Record StoreCtx : Type := {
  ctx_path : string;
  ctx_tag : string
}.

(** Modelled from the spec: the version the store generates for a new
    tag, "name:version"; the first one saved in an empty store is v1. *)
Definition new_tag (committed : gmap string ModelInfo) (name : string) : string :=
  name ++ ":v" ++ pretty (S (size committed)).

(** Modelled from the spec: [ModelStore.register] of
    [bentoml._internal.models.store], "register(name, module, metadata,
    framework_context) -> scoped transaction yielding {path, tag},
    committing the tag only if the scope exits without failure"; on an
    exception nothing is committed and the exception goes on. *)
Definition register (name module : string) (metadata : option Metadata)
    (framework_context : gmap string string)
  : context_manager World StoreCtx :=
  {| cm_enter := fun w =>
       let tag := new_tag (model_store w) name in
       (Ok {| ctx_path := model_path tag; ctx_tag := tag |}, w);
     cm_exit := fun ctx e w =>
       match e with
       | None =>
           (Ok false,
            set_model_store
              (<[ctx_tag ctx :=
                   {| info_tag := ctx_tag ctx; info_module := module;
                      info_path := ctx_path ctx; info_metadata := metadata;
                      info_context := framework_context |}]> (model_store w))
              w)
       | Some _ => (Ok false, w)
       end |}.

(** *** The adapter functions *)

(** The failure the spec calls ModuleMismatch: the [BentoMLException]
    that [_get_model_info] raises, with its message. *)
Definition ModuleMismatch (tag module : string) : exn :=
  BentoMLException
    ("Model " ++ tag ++ " was saved with module " ++ module
       ++ ", failed loading with " ++ __name__ ++ ".").

Definition _get_model_info (tag : string) : M World (ModelInfo * string) :=
  model_info <- model_store_get tag ;;
  _ <- load_global "__name__" ;;
  if negb (String.eqb (info_module model_info) __name__)
  then
    _ <- load_global "BentoMLException" ;;
    raise (BentoMLException
             ("Model " ++ tag ++ " was saved with module "
                ++ info_module model_info ++ ", failed loading with "
                ++ __name__ ++ "."))
  else
    _ <- load_global "os" ;;
    _ <- load_global "SAVE_NAMESPACE" ;;
    ret (model_info,
         os_path_join (info_path model_info) (SAVE_NAMESPACE ++ ".pkl")).

Definition load (tag : string) : M World Predictor :=
  _ <- load_global "_get_model_info" ;;
  found <- _get_model_info tag ;;
  let model_file := snd found in
  _ <- load_global "joblib" ;;
  joblib_load model_file.

(** Line 95, [context = {"sklearn": sklearn.__version__}]. *)
Definition framework_context : M World (gmap string string) :=
  sklearn <- load_global "sklearn" ;;
  v <- lift (version_of sklearn) ;;
  ret {[ "sklearn" := v ]}.

(** Lines 96 to 103, the registration scope. *)
Definition save_registered (name : string) (model : Predictor)
    (metadata : option Metadata) (context : gmap string string)
  : M World (option string) :=
  _ <- load_global "__name__" ;;
  with_return (register name __name__ metadata context)
    (fun ctx =>
       _ <- load_global "joblib" ;;
       _ <- load_global "os" ;;
       _ <- load_global "SAVE_NAMESPACE" ;;
       _ <- joblib_dump model
              (os_path_join (ctx_path ctx) (SAVE_NAMESPACE ++ ".pkl")) ;;
       ret (ctx_tag ctx)).

Definition save (name : string) (model : Predictor)
    (metadata : option Metadata) : M World (option string) :=
  context <- framework_context ;;
  save_registered name model metadata context.

(** *** The runner *)

Record ResourceQuota : Type := {
  cpu : spec_float;
  gpus : list Z
}.

(** Modelled from the spec: what [Runner.__init__] of
    [bentoml._internal.service.runner] leaves on the object, "new
    Runner(tag, resource_quota, batch_options)", the quota "supplied by
    the caller at Runner construction; immutable for the Runner's
    lifetime", and the replica's "integer id in [0, num_replica)". *)
Record Runner : Type := {
  runner_tag : string;
  resource_quota : ResourceQuota;
  batch_options : BatchOptions;
  replica_id : Z
}.

Definition Runner_init (tag : string) (quota : ResourceQuota)
    (options : BatchOptions) : Runner :=
  {| runner_tag := tag; resource_quota := quota;
     batch_options := options; replica_id := 0 |}.

(** [_model] is [None] while the attribute has not been assigned. *)
Record _SklearnRunner : Type := {
  base :> Runner;
  _model_info : ModelInfo;
  _model_file : string;
  _parallel_ctx : parallel_backend_obj;
  _model : option Predictor
}.

Definition set__model (m : option Predictor) (self : _SklearnRunner)
  : _SklearnRunner :=
  {| base := base self; _model_info := _model_info self;
     _model_file := _model_file self; _parallel_ctx := _parallel_ctx self;
     _model := m |}.

(** The property reads [self.resource_quota] only, and [__init__] reads
    it before the object is complete. *)
Definition num_concurrency_per_replica (self : Runner) : result Z :=
  match round (cpu (resource_quota self)) with
  | Ok n => Ok (int n)
  | Raise e => Raise e
  end.

Definition num_replica (self : Runner) : Z := 1.

Definition required_models (self : _SklearnRunner) : list string :=
  [info_tag (_model_info self)].

Definition __init__ (tag : string) (quota : ResourceQuota)
    (options : BatchOptions) : M World _SklearnRunner :=
  let self := Runner_init tag quota options in
  _ <- load_global "_get_model_info" ;;
  found <- _get_model_info tag ;;
  _ <- load_global "parallel_backend" ;;
  n_jobs <- lift (num_concurrency_per_replica self) ;;
  ctx <- parallel_backend "threading" n_jobs ;;
  ret {| base := self; _model_info := fst found; _model_file := snd found;
         _parallel_ctx := ctx; _model := None |}.

(** Assigns [self._model]: the result is the object afterwards. *)
Definition _setup (self : _SklearnRunner) : M World _SklearnRunner :=
  gpu_device_id <- lift (getitem (gpus (resource_quota self)) (replica_id self)) ;;
  _ <- load_global "joblib" ;;
  model_file <- load_global "model_file" ;;
  filename <- lift (as_filename model_file) ;;
  model <- joblib_load filename ;;
  ret (set__model (Some model) self).

Definition _run_batch (self : _SklearnRunner) (input_data : list Row)
  : M World (option (list Label)) :=
  with_return (parallel_backend_cm (_parallel_ctx self))
    (fun _ =>
       match _model self with
       | None => raise (AttributeError "_model")
       | Some model => call_predict model input_data
       end).

Definition load_runner (tag : string) (quota : ResourceQuota)
    (options : BatchOptions) : M World _SklearnRunner :=
  _ <- load_global "_SklearnRunner" ;;
  __init__ tag quota options.

(** *** The round trip of the spec's scenario *)

(** [tag = save(name, model, metadata=metadata)], then
    [load(tag).predict(x)]. *)
Definition save_load_predict (name : string) (model : Predictor)
    (metadata : option Metadata) (x : list Row) : M World (list Label) :=
  saved <- save name model metadata ;;
  match saved with
  | Some tag => loaded <- load tag ;; call_predict loaded x
  | None => raise (NotFound "None")
  end.

(** *** Callers of [_setup] running at once *)

(** Where a call of [_setup] stands: about to index the device list
    (line 137); about to read the names of line 139; about to call the
    codec; about to assign [self._model]; returned or raised. *)
Inductive setup_pc : Type :=
| PcIndex
| PcNames (gpu_device_id : Z)
| PcLoad (gpu_device_id : Z) (filename : string)
| PcAssign (gpu_device_id : Z) (model : Predictor)
| PcDone (r : result unit).

(** One step of one call, on the world and the runner all calls share. *)
Definition setup_step (pc : setup_pc) (st : World * _SklearnRunner)
  : setup_pc * (World * _SklearnRunner) :=
  let w := fst st in
  let self := snd st in
  match pc with
  | PcIndex =>
      match getitem (gpus (resource_quota self)) (replica_id self) with
      | Ok g => (PcNames g, st)
      | Raise e => (PcDone (Raise e), st)
      end
  | PcNames g =>
      match (_ <- load_global "joblib" ;;
             model_file <- load_global "model_file" ;;
             lift (as_filename model_file)) w with
      | (Ok f, w1) => (PcLoad g f, (w1, self))
      | (Raise e, w1) => (PcDone (Raise e), (w1, self))
      end
  | PcLoad g f =>
      match joblib_load f w with
      | (Ok m, w1) => (PcAssign g m, (w1, self))
      | (Raise e, w1) => (PcDone (Raise e), (w1, self))
      end
  | PcAssign g m => (PcDone (Ok tt), (w, set__model (Some m) self))
  | PcDone r => (PcDone r, st)
  end.

(** The calls in flight and what they share.  A step is one call moving
    on, or one more caller arriving. *)
Definition system : Type := list setup_pc * (World * _SklearnRunner).

Inductive conc_step : system -> system -> Prop :=
| conc_move (i : nat) pc pcs st pc' st' :
    pcs !! i = Some pc ->
    setup_step pc st = (pc', st') ->
    conc_step (pcs, st) (<[i := pc']> pcs, st')
| conc_arrive pcs st :
    conc_step (pcs, st) ((pcs ++ [PcIndex])%list, st).

Inductive conc_steps : system -> system -> Prop :=
| conc_refl s : conc_steps s s
| conc_snoc s1 s2 s3 : conc_steps s1 s2 -> conc_step s2 s3 -> conc_steps s1 s3.

(** A schedule, run: [Arrive] adds a caller, [Move i] lets caller [i]
    take its next step. *)
Inductive action : Type :=
| Arrive
| Move (i : nat).

Definition run_action (a : action) (s : system) : system :=
  match a with
  | Arrive => ((fst s ++ [PcIndex])%list, snd s)
  | Move i =>
      match fst s !! i with
      | Some pc =>
          let next := setup_step pc (snd s) in
          (<[i := fst next]> (fst s), snd next)
      | None => s
      end
  end.

Definition run_schedule (acts : list action) (s : system) : system :=
  fold_left (fun s a => run_action a s) acts s.

(** How often the codec was asked to deserialize. *)
Fixpoint count_loads (t : list event) : nat :=
  match t with
  | [] => 0%nat
  | EvLoad _ :: t' => S (count_loads t')
  | _ :: t' => count_loads t'
  end.

(** *** What the spec asks of the rounding *)

(** "the quota's CPU count, rounded to the nearest integer". *)
Definition nearest_integer (c : Q) (n : Z) : Prop :=
  (Qabs (c - inject_Z n) <= 1 # 2)%Q.

(** [c] lies exactly halfway between [k] and [k + 1]. *)
Definition halfway (c : Q) (k : Z) : Prop :=
  (c == inject_Z k + (1 # 2))%Q.

(** *** What the spec asks of a batch *)

(** [predict] answers row by row: one label per row, in order. *)
Definition row_preserving (f : Row -> Label) (m : Predictor) : Prop :=
  forall x, predict m x = Ok (map f x).

(** ** Properties *)

(** *** Rounding the CPU count *)

Lemma pow2_neg_exp_pos (e : Z) : e < 0 -> 2 <= 2 ^ (- e).
Proof.
  intros He. change 2 with (2 ^ 1) at 1.
  apply Z.pow_le_mono_r; lia.
Qed.

(** Division with remainder, in the shape the rounding uses. *)
Lemma round_half_even_cases (m : positive) (e : Z) :
  e < 0 ->
  let d := 2 ^ (- e) in
  let q := Z.pos m / d in
  let r := Z.pos m mod d in
  Z.pos m = d * q + r /\ 0 <= r < d /\
  ((2 * r < d /\ round_half_even m e = q) \/
   (2 * r > d /\ round_half_even m e = q + 1) \/
   (2 * r = d /\ round_half_even m e = (if Z.even q then q else q + 1))).
Proof.
  intros He d q r.
  pose proof (pow2_neg_exp_pos e He) as Hd. fold d in Hd.
  split; [apply Z.div_mod; lia |].
  split; [apply Z.mod_pos_bound; lia |].
  unfold round_half_even.
  destruct (Z.leb_spec 0 e) as [Hle | _]; [lia |].
  fold d q r.
  destruct (Z.compare_spec (2 * r) d) as [Heq | Hlt | Hgt]; auto.
  right; left; split; [lia | reflexivity].
Qed.

Lemma nearest_integer_scaled (m n d : Z) :
  0 < d -> 2 * Z.abs (m - n * d) <= d ->
  nearest_integer (Qmake m (Z.to_pos d)) n.
Proof.
  intros Hd H. unfold nearest_integer, Qle, Qabs, Qminus, Qplus, Qopp, inject_Z.
  cbn [Qnum Qden].
  rewrite Pos.mul_1_r, Z2Pos.id by lia.
  replace (m * 1 + - n * d) with (m - n * d) by ring. lia.
Qed.

Lemma nearest_integer_self (n : Z) : nearest_integer (inject_Z n) n.
Proof.
  unfold nearest_integer, Qle, Qabs, Qminus, Qplus, Qopp, inject_Z.
  cbn [Qnum Qden]. lia.
Qed.

Lemma nearest_integer_opp (c : Q) (n : Z) :
  nearest_integer c n -> nearest_integer (- c)%Q (- n).
Proof.
  unfold nearest_integer. intros H.
  assert (E : (- c - inject_Z (- n) == - (c - inject_Z n))%Q).
  { rewrite inject_Z_opp. ring. }
  rewrite E, Qabs_opp. exact H.
Qed.

Lemma round_half_even_nearest (m : positive) (e : Z) :
  nearest_integer (magnitude m e) (round_half_even m e).
Proof.
  unfold magnitude. destruct (Z.leb_spec 0 e) as [Hle | Hlt].
  - unfold round_half_even. destruct (Z.leb_spec 0 e); [| lia].
    apply nearest_integer_self.
  - pose proof (pow2_neg_exp_pos e Hlt) as Hd.
    destruct (round_half_even_cases m e Hlt) as (Hm & Hr & Hc).
    apply nearest_integer_scaled; [lia |].
    set (d := 2 ^ (- e)) in *. set (q := Z.pos m / d) in *.
    set (r := Z.pos m mod d) in *.
    destruct Hc as [[H1 ->] | [[H1 ->] | [H1 ->]]].
    + replace (Z.pos m - q * d) with r by lia. lia.
    + replace (Z.pos m - (q + 1) * d) with (r - d) by lia. lia.
    + destruct (Z.even q).
      * replace (Z.pos m - q * d) with r by lia. lia.
      * replace (Z.pos m - (q + 1) * d) with (r - d) by lia. lia.
Qed.

Lemma round_nearest (x : spec_float) :
  is_finite x = true ->
  exists c n, float_value x = Some c /\ round x = Ok n /\ nearest_integer c n.
Proof.
  destruct x as [s | s | | s m e]; cbn [is_finite]; try discriminate; intros _.
  - exists 0%Q, 0. repeat split. apply (nearest_integer_self 0).
  - cbn [float_value round]. do 2 eexists. repeat split.
    destruct s.
    + apply nearest_integer_opp, round_half_even_nearest.
    + apply round_half_even_nearest.
Qed.

Lemma halfway_scaled (m d k : Z) :
  0 < d -> halfway (Qmake m (Z.to_pos d)) k -> 2 * m = (2 * k + 1) * d.
Proof.
  intros Hd. unfold halfway, Qeq, Qplus, inject_Z. cbn [Qnum Qden].
  rewrite Z2Pos.id by lia. lia.
Qed.

Lemma halfway_not_integer (n k : Z) : ~ halfway (inject_Z n) k.
Proof.
  unfold halfway, Qeq, Qplus, inject_Z. cbn [Qnum Qden]. lia.
Qed.

Lemma halfway_opp (c : Q) (k : Z) :
  halfway (- c)%Q k -> halfway c (- k - 1).
Proof.
  unfold halfway, Qeq, Qplus, Qopp, inject_Z. destruct c as [a b].
  cbn [Qnum Qden]. lia.
Qed.

(** On a tie the quotient is the lower neighbour, and the even one of the
    two neighbours is chosen. *)
Lemma round_half_even_tie (m : positive) (e : Z) (k : Z) :
  halfway (magnitude m e) k ->
  Z.even (round_half_even m e) = true /\
  (round_half_even m e = k \/ round_half_even m e = k + 1).
Proof.
  unfold magnitude. destruct (Z.leb_spec 0 e) as [Hle | Hlt]; intros Hh.
  - exfalso. exact (halfway_not_integer _ _ Hh).
  - pose proof (pow2_neg_exp_pos e Hlt) as Hd.
    apply halfway_scaled in Hh; [| lia].
    destruct (round_half_even_cases m e Hlt) as (Hm & Hr & Hc).
    set (d := 2 ^ (- e)) in *. set (q := Z.pos m / d) in *.
    set (r := Z.pos m mod d) in *.
    assert (Hq : q = k) by nia.
    destruct Hc as [[H1 _] | [[H1 _] | [_ ->]]]; [nia | nia |].
    destruct (Z.even q) eqn:Eq.
    + split; [exact Eq | left; exact Hq].
    + split; [| right; lia].
      rewrite Z.even_add, Eq. reflexivity.
Qed.

Lemma round_tie (x : spec_float) (c : Q) (k : Z) :
  float_value x = Some c ->
  halfway c k ->
  exists n, round x = Ok n /\ Z.even n = true /\ (n = k \/ n = k + 1).
Proof.
  destruct x as [s | s | | s m e]; cbn [float_value]; try discriminate.
  - intros [= <-] Hh. exfalso. exact (halfway_not_integer 0 k Hh).
  - intros [= <-] Hh. cbn [round]. eexists; split; [reflexivity |].
    destruct s.
    + apply halfway_opp, round_half_even_tie in Hh.
      destruct Hh as [He Hn]. rewrite Z.even_opp. split; [exact He | lia].
    + apply round_half_even_tie. exact Hh.
Qed.

(** C1. For every valid quota (its CPU count [c] a finite float), the
    runner's [num_concurrency_per_replica] is [round(c)], an integer
    nearest to [c], and its [num_replica] is 1. *)
Theorem concurrency_plan_from_quota (self : Runner) :
  is_finite (cpu (resource_quota self)) = true ->
  exists c n,
    float_value (cpu (resource_quota self)) = Some c /\
    round (cpu (resource_quota self)) = Ok n /\
    num_concurrency_per_replica self = Ok n /\
    nearest_integer c n /\
    num_replica self = 1.
Proof.
  intros Hfin.
  destruct (round_nearest _ Hfin) as (c & n & Hc & Hn & Hnear).
  exists c, n. unfold num_concurrency_per_replica, int. rewrite Hn.
  repeat split; assumption.
Qed.

(** C10. [num_concurrency_per_replica] rounds half to even: a CPU count
    exactly halfway between [k] and [k + 1] gives the even one of the two,
    so 0.5 gives 0 workers and 2.5 gives 2. *)
Theorem concurrency_rounds_half_to_even (self : Runner) (c : Q) (k : Z) :
  float_value (cpu (resource_quota self)) = Some c ->
  halfway c k ->
  exists n,
    num_concurrency_per_replica self = Ok n /\
    Z.even n = true /\ (n = k \/ n = k + 1) /\
    (k = 0 -> n = 0) /\ (k = 2 -> n = 2).
Proof.
  intros Hc Hh.
  destruct (round_tie _ _ _ Hc Hh) as (n & Hn & He & Hk).
  exists n. unfold num_concurrency_per_replica, int. rewrite Hn.
  split; [reflexivity |]. split; [exact He |]. split; [exact Hk |].
  split; intros ->; destruct Hk as [-> | ->]; try reflexivity; discriminate.
Qed.

(** *** Name resolution *)

Ltac resolve_names :=
  repeat match goal with
  | |- context [resolve globals ?n] =>
      let v := eval vm_compute in (resolve globals n) in
      change (resolve globals n) with v
  end.

Ltac py_run :=
  unfold load_global; resolve_names;
  unfold bind, ret, raise, lift; cbn beta iota.

(** [import sklearn.externals.joblib as joblib] binds [joblib] and
    leaves [sklearn] unbound. *)
Lemma sklearn_unbound (w : World) :
  load_global "sklearn" w = (Raise (NameError "sklearn"), w).
Proof. reflexivity. Qed.

Lemma joblib_bound (w : World) :
  load_global "joblib" w = (Ok (ObjModule "sklearn.externals.joblib"), w).
Proof. reflexivity. Qed.

(** [__init__] keeps the file name in [self._model_file]; no global
    [model_file] exists. *)
Lemma model_file_unbound (w : World) :
  load_global "model_file" w = (Raise (NameError "model_file"), w).
Proof. reflexivity. Qed.

(** *** Loading *)

Lemma get_model_info_mismatch (tag : string) (info : ModelInfo) (w : World) :
  model_store w !! tag = Some info ->
  info_module info <> __name__ ->
  _get_model_info tag w = (Raise (ModuleMismatch tag (info_module info)), w).
Proof.
  intros Hget Hne. unfold _get_model_info, model_store_get.
  unfold bind at 1. rewrite Hget.
  apply String.eqb_neq in Hne. py_run. rewrite Hne. reflexivity.
Qed.

Lemma get_model_info_match (tag : string) (info : ModelInfo) (w : World) :
  model_store w !! tag = Some info ->
  info_module info = __name__ ->
  _get_model_info tag w =
    (Ok (info, os_path_join (info_path info) (SAVE_NAMESPACE ++ ".pkl")), w).
Proof.
  intros Hget He. unfold _get_model_info, model_store_get.
  unfold bind at 1. rewrite Hget.
  apply String.eqb_eq in He. py_run. rewrite He. reflexivity.
Qed.

Lemma load_mismatch (tag : string) (info : ModelInfo) (w : World) :
  model_store w !! tag = Some info ->
  info_module info <> __name__ ->
  load tag w = (Raise (ModuleMismatch tag (info_module info)), w).
Proof.
  intros Hget Hne. unfold load. py_run.
  rewrite (get_model_info_mismatch tag info w Hget Hne). reflexivity.
Qed.

Lemma load_match (tag : string) (info : ModelInfo) (w : World) :
  model_store w !! tag = Some info ->
  info_module info = __name__ ->
  load tag w =
    joblib_load (os_path_join (info_path info) (SAVE_NAMESPACE ++ ".pkl")) w.
Proof.
  intros Hget He. unfold load. py_run.
  rewrite (get_model_info_match tag info w Hget He). reflexivity.
Qed.

Lemma joblib_load_pickled (filename : string) (m : Predictor) (w : World) :
  fs w !! filename = Some (Pickled m) ->
  joblib_load filename w = (Ok m, log (EvLoad filename) w).
Proof. intros Hm. unfold joblib_load. rewrite Hm. reflexivity. Qed.

(** C4. A tag whose stored ModelInfo names another owning module makes
    [load] raise ModuleMismatch, with nothing read and no model returned;
    a tag whose stored module is this adapter's makes [load] deserialize
    the resolved model file and return what the codec returns, the
    predictor that the file holds. *)
Theorem load_checks_owning_module (tag : string) (info : ModelInfo) (w : World) :
  model_store w !! tag = Some info ->
  (info_module info <> __name__ ->
   load tag w = (Raise (ModuleMismatch tag (info_module info)), w)) /\
  (info_module info = __name__ ->
   let model_file := os_path_join (info_path info) (SAVE_NAMESPACE ++ ".pkl") in
   load tag w = joblib_load model_file w /\
   forall m, fs w !! model_file = Some (Pickled m) ->
             load tag w = (Ok m, log (EvLoad model_file) w)).
Proof.
  intros Hget. split.
  - apply load_mismatch. exact Hget.
  - intros He model_file.
    pose proof (load_match tag info w Hget He) as Hl. fold model_file in Hl.
    split; [exact Hl |].
    intros m Hm. rewrite Hl. apply joblib_load_pickled. exact Hm.
Qed.

(** *** Saving *)

Lemma framework_context_unbound (w : World) :
  framework_context w = (Raise (NameError "sklearn"), w).
Proof. reflexivity. Qed.

Lemma save_raises (name : string) (model : Predictor)
    (metadata : option Metadata) (w : World) :
  save name model metadata w = (Raise (NameError "sklearn"), w).
Proof. reflexivity. Qed.

(** The registration scope alone, entered with a context already built. *)
Lemma save_registered_commits (name : string) (model : Predictor)
    (metadata : option Metadata) (context : gmap string string) (w : World) :
  picklable model = true ->
  let tag := new_tag (model_store w) name in
  let model_file := os_path_join (model_path tag) (SAVE_NAMESPACE ++ ".pkl") in
  exists w',
    save_registered name model metadata context w = (Ok (Some tag), w') /\
    fs w' = <[model_file := Pickled model]> (fs w) /\
    model_store w' =
      <[tag := {| info_tag := tag; info_module := __name__;
                  info_path := model_path tag; info_metadata := metadata;
                  info_context := context |}]> (model_store w).
Proof.
  intros Hp tag model_file. unfold save_registered. py_run.
  unfold with_return, register; cbn [cm_enter cm_exit ctx_path ctx_tag].
  py_run. unfold joblib_dump. rewrite Hp. cbn beta iota.
  eexists. split; [reflexivity |]. split; reflexivity.
Qed.

(** With the context built, what the scope saves is what [load] returns. *)
Lemma save_registered_load (name : string) (model : Predictor)
    (metadata : option Metadata) (context : gmap string string) (w : World) :
  picklable model = true ->
  exists tag w1 w2,
    save_registered name model metadata context w = (Ok (Some tag), w1) /\
    load tag w1 = (Ok model, w2).
Proof.
  intros Hp.
  destruct (save_registered_commits name model metadata context w Hp)
    as (w1 & Hs & Hfs & Hst).
  set (tag := new_tag (model_store w) name) in *.
  set (info := {| info_tag := tag; info_module := __name__;
                  info_path := model_path tag; info_metadata := metadata;
                  info_context := context |}) in *.
  assert (Hget : model_store w1 !! tag = Some info).
  { rewrite Hst. apply lookup_insert_eq. }
  exists tag, w1. eexists. split; [exact Hs |].
  rewrite (load_match tag info w1 Hget eq_refl).
  apply joblib_load_pickled. rewrite Hfs. apply lookup_insert_eq.
Qed.

(** C5 (the code at every input). The round trip stops at its first
    step: [save] raises on the unbound name [sklearn] and returns no tag,
    so nothing is loaded and nothing predicted, and the world is as it was. *)
Theorem save_load_round_trip_raises (name : string) (model : Predictor)
    (metadata : option Metadata) (x : list Row) (w : World) :
  save name model metadata w = (Raise (NameError "sklearn"), w) /\
  save_load_predict name model metadata x w = (Raise (NameError "sklearn"), w).
Proof. split; reflexivity. Qed.

(** C8 (the code at every input). Building the framework context fails
    on the unbound name [sklearn], so [save] fails before it registers
    anything. *)
Theorem save_fails_building_context (name : string) (model : Predictor)
    (metadata : option Metadata) (w : World) :
  framework_context w = (Raise (NameError "sklearn"), w) /\
  save name model metadata w = (Raise (NameError "sklearn"), w).
Proof. split; reflexivity. Qed.

(** *** Setting a replica up *)

Lemma getitem_nil {A} (i : Z) : getitem (@nil A) i = Raise IndexError.
Proof.
  unfold getitem. cbv zeta.
  destruct (_ || _); [reflexivity |].
  destruct (Z.to_nat _); reflexivity.
Qed.

(** Whatever the quota, [_setup] raises before it reaches the codec. *)
Lemma setup_raises (self : _SklearnRunner) (w : World) :
  exists e, _setup self w = (Raise e, w) /\
            (e = IndexError \/ e = NameError "model_file").
Proof.
  unfold _setup.
  destruct (getitem (gpus (resource_quota self)) (replica_id self)) as [g | e] eqn:Eg.
  - exists (NameError "model_file"). py_run. split; [reflexivity | right; reflexivity].
  - exists e. py_run. split; [reflexivity |].
    left. unfold getitem in Eg.
    destruct (_ || _); [congruence |].
    destruct (nth_error _ _); congruence.
Qed.

(** C2 (the code on every CPU-only quota). With an empty device list
    [_setup] indexes the list all the same and raises IndexError: no
    model is deserialized and the world is as it was. *)
Theorem setup_fails_without_gpus (self : _SklearnRunner) (w : World) :
  gpus (resource_quota self) = [] ->
  _setup self w = (Raise IndexError, w).
Proof.
  intros Hg. unfold _setup. rewrite Hg, getitem_nil. reflexivity.
Qed.

(** *** Running a batch *)

Lemma unregister_restores (pb : parallel_backend_obj) (w : World) :
  exists w', unregister pb w = (Ok tt, w') /\
             backend_and_jobs w' = old_backend_and_jobs pb /\
             trace w' = trace w /\ fs w' = fs w /\
             model_store w' = model_store w.
Proof.
  unfold unregister.
  destruct (old_backend_and_jobs pb) as [old |] eqn:Eo;
    [| destruct (backend_and_jobs w) eqn:Eb];
    eexists; (split; [reflexivity |]); cbn; auto.
Qed.

Lemma get_model_info_world (tag : string) (w : World) :
  snd (_get_model_info tag w) = w.
Proof.
  unfold _get_model_info, model_store_get. unfold bind at 1.
  destruct (model_store w !! tag) as [info |]; [| reflexivity].
  py_run. destruct (negb _); reflexivity.
Qed.

(** What [__init__] leaves: the quota as given, no model yet, and a scope
    object for [num_concurrency_per_replica] threads that is active from
    the constructor on and remembers what was active before. *)
Lemma init_activates_scope (tag : string) (quota : ResourceQuota)
    (options : BatchOptions) (w : World) (self : _SklearnRunner) (w' : World) :
  __init__ tag quota options w = (Ok self, w') ->
  resource_quota self = quota /\ _model self = None /\
  exists n,
    num_concurrency_per_replica self = Ok n /\
    _parallel_ctx self =
      {| old_backend_and_jobs := backend_and_jobs w;
         new_backend_and_jobs := ("threading", n) |} /\
    backend_and_jobs w' = Some ("threading", n).
Proof.
  unfold __init__. py_run.
  pose proof (get_model_info_world tag w) as Hw.
  destruct (_get_model_info tag w) as [[found | e] w1]; cbn [snd] in Hw;
    subst w1; [| discriminate].
  destruct (num_concurrency_per_replica (Runner_init tag quota options))
    as [n | e] eqn:En; [| discriminate].
  unfold parallel_backend. cbn [existsb String.eqb orb].
  change (existsb (String.eqb "threading") BACKENDS) with true.
  cbn beta iota. intros [= <- <-]. cbn.
  split; [reflexivity |]. split; [reflexivity |].
  exists n. split; [exact En |]. split; reflexivity.
Qed.

(** A call on a ready replica: the model's answer on the whole input,
    computed under whatever backend was active when the call came, and
    the backend of before the runner was built active afterwards. *)
Lemma run_batch_ready (self : _SklearnRunner) (m : Predictor)
    (x : list Row) (w : World) :
  _model self = Some m ->
  exists w',
    _run_batch self x w =
      (match predict m x with Ok y => Ok (Some y) | Raise e => Raise e end, w') /\
    trace w' = (trace w ++ [EvPredict (length x) (backend_and_jobs w)])%list /\
    backend_and_jobs w' = old_backend_and_jobs (_parallel_ctx self).
Proof.
  intros Hm. unfold _run_batch, with_return, parallel_backend_cm.
  cbn [cm_enter cm_exit]. rewrite Hm. unfold call_predict. py_run.
  set (w1 := log _ w).
  destruct (unregister_restores (_parallel_ctx self) w1)
    as (w2 & Hu & Hb & Ht & _).
  exists w2. rewrite Hu.
  destruct (predict m x); (split; [reflexivity | split; assumption]).
Qed.

(** C3. On a ready replica whose model answers row by row, a batch of
    N >= 1 rows comes back as N labels, the i-th label that of the i-th
    row: nothing dropped, reordered or duplicated. *)
Theorem run_batch_row_aligned (self : _SklearnRunner) (m : Predictor)
    (f : Row -> Label) (x : list Row) (w : World) :
  _model self = Some m ->
  row_preserving f m ->
  (1 <= length x)%nat ->
  exists y w',
    _run_batch self x w = (Ok (Some y), w') /\
    length y = length x /\
    forall i : nat, y !! i = f <$> x !! i.
Proof.
  intros Hm Hf _.
  destruct (run_batch_ready self m x w Hm) as (w' & Hr & _).
  rewrite (Hf x) in Hr.
  exists (map f x), w'. split; [exact Hr |].
  split; [apply length_map |].
  intros i. apply list_lookup_fmap.
Qed.

(** C7 (the code on every ready replica). Of two calls in a row, the
    first runs the model under whatever backend is active when it comes,
    and the second under the backend that was active before the runner was
    built: the scope object is built once, in [__init__], and its exit
    after the first call undoes it for good. *)
Theorem second_batch_outside_scope (self : _SklearnRunner) (m : Predictor)
    (x1 x2 : list Row) (w : World) :
  _model self = Some m ->
  exists r1 w1 r2 w2,
    _run_batch self x1 w = (r1, w1) /\
    _run_batch self x2 w1 = (r2, w2) /\
    trace w2 =
      (trace w ++
         [EvPredict (length x1) (backend_and_jobs w);
          EvPredict (length x2) (old_backend_and_jobs (_parallel_ctx self))])%list.
Proof.
  intros Hm.
  destruct (run_batch_ready self m x1 w Hm) as (w1 & Hr1 & Ht1 & Hb1).
  destruct (run_batch_ready self m x2 w1 Hm) as (w2 & Hr2 & Ht2 & Hb2).
  do 4 eexists. split; [exact Hr1 |]. split; [exact Hr2 |].
  rewrite Ht2, Ht1, Hb1, <- app_assoc. reflexivity.
Qed.

(** *** Callers racing on an uninitialized replica *)

(** Where a call can stand: a call never gets past the names of line 139. *)
Definition before_codec (pc : setup_pc) : Prop :=
  match pc with
  | PcIndex | PcNames _ | PcDone (Raise _) => True
  | _ => False
  end.

Lemma setup_step_before_codec (pc : setup_pc) (st : World * _SklearnRunner) :
  before_codec pc ->
  before_codec (fst (setup_step pc st)) /\ snd (setup_step pc st) = st.
Proof.
  destruct st as [w self].
  destruct pc as [| g | g f | g m | [u | e]]; cbn [before_codec];
    intros H; try contradiction.
  - cbn [setup_step fst snd].
    destruct (getitem _ _); cbn; auto.
  - cbn; auto.
  - cbn; auto.
Qed.

(** The steps of one call, run to the end, are [_setup]. *)
Lemma setup_steps_agree (self : _SklearnRunner) (w : World) :
  let run pcst := setup_step (fst pcst) (snd pcst) in
  run (run (run (run (PcIndex, (w, self))))) =
    match _setup self w with
    | (Ok self', w') => (PcDone (Ok tt), (w', self'))
    | (Raise e, w') => (PcDone (Raise e), (w', self))
    end.
Proof.
  cbv zeta. unfold _setup. cbn [setup_step fst snd].
  destruct (getitem (gpus (resource_quota self)) (replica_id self)) as [g | e];
    reflexivity.
Qed.

Lemma conc_steps_invariant (w0 : World) (self0 : _SklearnRunner) (s : system) :
  conc_steps ([], (w0, self0)) s ->
  Forall before_codec (fst s) /\ snd s = (w0, self0).
Proof.
  intros H. remember ([], (w0, self0)) as s0 eqn:E0.
  induction H as [s | s1 s2 s3 H12 IH H23]; subst.
  - cbn. split; [constructor | reflexivity].
  - destruct (IH eq_refl) as [Hpcs Hst]. clear IH H12.
    destruct H23 as [i pc pcs st pc' st' Hi Hstep | pcs st]; cbn [fst snd] in *.
    + assert (Hpc : before_codec pc).
      { rewrite Forall_lookup in Hpcs. exact (Hpcs i pc Hi). }
      destruct (setup_step_before_codec pc st Hpc) as [H1 H2].
      rewrite Hstep in H1, H2. cbn [fst snd] in H1, H2. subst st'.
      split; [| exact Hst].
      apply Forall_insert; assumption.
    + split; [| exact Hst].
      apply Forall_app. split; [exact Hpcs |].
      repeat constructor.
Qed.

(** C9. However many callers run [_setup] on an uninitialized replica,
    and however their steps interleave, the codec is asked to deserialize
    at most once (in fact never: every call raises first) and no caller
    can see a predictor on the replica. *)
Theorem setup_deserializes_at_most_once (w0 : World) (self0 : _SklearnRunner)
    (pcs : list setup_pc) (w : World) (self : _SklearnRunner) :
  _model self0 = None ->
  conc_steps ([], (w0, self0)) (pcs, (w, self)) ->
  (count_loads (trace w) <= count_loads (trace w0) + 1)%nat /\
  _model self = None.
Proof.
  intros Hm H.
  destruct (conc_steps_invariant w0 self0 _ H) as [_ Hst].
  cbn [snd] in Hst. injection Hst as -> ->.
  split; [lia | exact Hm].
Qed.

Lemma run_action_steps (a : action) (s : system) :
  conc_steps s (run_action a s).
Proof.
  destruct s as [pcs st]. destruct a as [| i]; cbn [run_action fst snd].
  - eapply conc_snoc; [apply conc_refl | apply conc_arrive].
  - destruct (pcs !! i) as [pc |] eqn:Ei; [| apply conc_refl].
    eapply conc_snoc; [apply conc_refl |].
    eapply conc_move; [exact Ei |].
    destruct (setup_step pc st); reflexivity.
Qed.

Lemma conc_steps_trans (s1 s2 s3 : system) :
  conc_steps s1 s2 -> conc_steps s2 s3 -> conc_steps s1 s3.
Proof.
  intros H12 H23. induction H23 as [| s2 s3 s4 _ IH H34]; [exact H12 |].
  eapply conc_snoc; [apply IH; exact H12 | exact H34].
Qed.

Lemma run_schedule_steps (acts : list action) (s : system) :
  conc_steps s (run_schedule acts s).
Proof.
  revert s. induction acts as [| a acts IH]; intros s; cbn.
  - apply conc_refl.
  - eapply conc_steps_trans; [apply run_action_steps | apply IH].
Qed.

(** ** Further properties of the adapter *)

(** *** The worker budget as a function of the CPU count *)

Lemma nearest_integer_bounds (a : Z) (b : positive) (n : Z) :
  nearest_integer (a # b) n <->
  (2 * n - 1) * Z.pos b <= 2 * a <= (2 * n + 1) * Z.pos b.
Proof.
  unfold nearest_integer, Qle, Qabs, Qminus, Qplus, Qopp, inject_Z.
  cbn [Qnum Qden]. rewrite Pos.mul_1_r. lia.
Qed.

Lemma halfway_bounds (a : Z) (b : positive) (k : Z) :
  halfway (a # b) k <-> 2 * a = (2 * k + 1) * Z.pos b.
Proof.
  unfold halfway, Qeq, Qplus, inject_Z. cbn [Qnum Qden]. lia.
Qed.

(** What [round] returns, by the value of its argument alone. *)
Lemma round_spec (x : spec_float) (c : Q) (n : Z) :
  float_value x = Some c ->
  round x = Ok n ->
  nearest_integer c n /\ (forall k, halfway c k -> Z.even n = true).
Proof.
  intros Hc Hn.
  assert (Hfin : is_finite x = true) by (destruct x; try discriminate; reflexivity).
  destruct (round_nearest x Hfin) as (c' & n' & Hc' & Hn' & Hnear).
  rewrite Hc in Hc'. injection Hc' as <-.
  rewrite Hn in Hn'. injection Hn' as <-.
  split; [exact Hnear |].
  intros k Hk. destruct (round_tie x c k Hc Hk) as (n' & Hn' & He & _).
  rewrite Hn in Hn'. injection Hn' as <-. exact He.
Qed.

Lemma num_concurrency_is_round (self : Runner) (n : Z) :
  num_concurrency_per_replica self = Ok n <->
  round (cpu (resource_quota self)) = Ok n.
Proof.
  unfold num_concurrency_per_replica, int.
  destruct (round (cpu (resource_quota self))); split; congruence.
Qed.

Lemma round_monotone (x1 x2 : spec_float) (c1 c2 : Q) (n1 n2 : Z) :
  float_value x1 = Some c1 -> float_value x2 = Some c2 ->
  round x1 = Ok n1 -> round x2 = Ok n2 ->
  (c1 <= c2)%Q -> n1 <= n2.
Proof.
  intros Hc1 Hc2 Hn1 Hn2 Hle.
  destruct (round_spec x1 c1 n1 Hc1 Hn1) as [Hnear1 Htie1].
  destruct (round_spec x2 c2 n2 Hc2 Hn2) as [Hnear2 Htie2].
  destruct c1 as [a1 b1], c2 as [a2 b2].
  apply nearest_integer_bounds in Hnear1, Hnear2.
  unfold Qle in Hle. cbn [Qnum Qden] in Hle.
  destruct (Z_le_gt_dec n1 n2) as [H | Hgt]; [exact H | exfalso].
  pose proof (Pos2Z.is_pos b1) as Hb1. pose proof (Pos2Z.is_pos b2) as Hb2.
  set (d1 := Z.pos b1) in *. set (d2 := Z.pos b2) in *.
  assert (E1 : (2 * n1 - 1) * (d1 * d2) <= 2 * (a1 * d2)).
  { replace ((2 * n1 - 1) * (d1 * d2)) with ((2 * n1 - 1) * d1 * d2) by ring.
    replace (2 * (a1 * d2)) with (2 * a1 * d2) by ring.
    apply Z.mul_le_mono_nonneg_r; lia. }
  assert (E2 : 2 * (a2 * d1) <= (2 * n2 + 1) * (d1 * d2)).
  { replace ((2 * n2 + 1) * (d1 * d2)) with ((2 * n2 + 1) * d2 * d1) by ring.
    replace (2 * (a2 * d1)) with (2 * a2 * d1) by ring.
    apply Z.mul_le_mono_nonneg_r; lia. }
  assert (HP : 0 < d1 * d2) by (apply Z.mul_pos_pos; assumption).
  set (P := d1 * d2) in *.
  assert (Hn : n1 = n2 + 1).
  { assert ((2 * n1 - 1) * P <= (2 * n2 + 1) * P) by lia.
    assert (2 * n1 - 1 <= 2 * n2 + 1) by (apply Z.mul_le_mono_pos_r with P; assumption).
    lia. }
  subst n1.
  assert (H1 : 2 * a1 = (2 * n2 + 1) * d1).
  { apply Z.mul_cancel_r with d2; [lia |].
    replace ((2 * n2 + 1) * d1 * d2) with ((2 * n2 + 1) * P) by (unfold P; ring).
    replace (2 * (n2 + 1) - 1) with (2 * n2 + 1) in * by ring. lia. }
  assert (H2 : 2 * a2 = (2 * n2 + 1) * d2).
  { apply Z.mul_cancel_r with d1; [lia |].
    replace ((2 * n2 + 1) * d2 * d1) with ((2 * n2 + 1) * P) by (unfold P; ring).
    replace (2 * (n2 + 1) - 1) with (2 * n2 + 1) in * by ring. lia. }
  unfold d1 in H1. unfold d2 in H2.
  apply halfway_bounds in H1, H2.
  specialize (Htie1 n2 H1). specialize (Htie2 n2 H2).
  rewrite Z.even_add, Htie2 in Htie1. discriminate.
Qed.

(** X1. More CPU never gives fewer workers: the budget is monotone in the
    value of the quota's CPU count. *)
Theorem concurrency_monotone (r1 r2 : Runner) (c1 c2 : Q) (n1 n2 : Z) :
  float_value (cpu (resource_quota r1)) = Some c1 ->
  float_value (cpu (resource_quota r2)) = Some c2 ->
  num_concurrency_per_replica r1 = Ok n1 ->
  num_concurrency_per_replica r2 = Ok n2 ->
  (c1 <= c2)%Q ->
  n1 <= n2.
Proof.
  intros Hc1 Hc2 Hn1 Hn2. apply num_concurrency_is_round in Hn1, Hn2.
  exact (round_monotone _ _ c1 c2 n1 n2 Hc1 Hc2 Hn1 Hn2).
Qed.

(** X2. The budget is zero workers exactly when the CPU count is at most
    one half in absolute value. *)
Theorem concurrency_zero_iff (self : Runner) (c : Q) (n : Z) :
  float_value (cpu (resource_quota self)) = Some c ->
  num_concurrency_per_replica self = Ok n ->
  (n = 0 <-> (Qabs c <= 1 # 2)%Q).
Proof.
  intros Hc Hn. apply num_concurrency_is_round in Hn.
  destruct (round_spec _ c n Hc Hn) as [Hnear Htie].
  destruct c as [a b]. apply nearest_integer_bounds in Hnear.
  pose proof (Pos2Z.is_pos b) as Hb.
  assert (Habs : (Qabs (a # b) <= 1 # 2)%Q <-> - Z.pos b <= 2 * a <= Z.pos b).
  { unfold Qle, Qabs. cbn [Qnum Qden]. lia. }
  rewrite Habs. split.
  - intros ->. lia.
  - intros Hr.
    assert (Hn3 : n = -1 \/ n = 0 \/ n = 1) by nia.
    destruct Hn3 as [-> | [-> | ->]]; [exfalso | reflexivity | exfalso].
    + assert (Hh : halfway (a # b) (-1)) by (apply halfway_bounds; lia).
      specialize (Htie _ Hh). discriminate.
    + assert (Hh : halfway (a # b) 0) by (apply halfway_bounds; lia).
      specialize (Htie _ Hh). discriminate.
Qed.

(** X3. A whole number of CPUs gives exactly that many workers. *)
Theorem concurrency_of_whole_cpus (self : Runner) (c : Q) (k : Z) :
  float_value (cpu (resource_quota self)) = Some c ->
  (c == inject_Z k)%Q ->
  num_concurrency_per_replica self = Ok k.
Proof.
  intros Hc Hk.
  assert (Hfin : is_finite (cpu (resource_quota self)) = true).
  { destruct (cpu (resource_quota self)); try discriminate; reflexivity. }
  destruct (round_nearest _ Hfin) as (c' & n & Hc' & Hn & Hnear).
  rewrite Hc in Hc'. injection Hc' as <-.
  apply num_concurrency_is_round. rewrite Hn. f_equal.
  destruct c as [a b]. apply nearest_integer_bounds in Hnear.
  unfold Qeq, inject_Z in Hk. cbn [Qnum Qden] in Hk.
  pose proof (Pos2Z.is_pos b) as Hb. nia.
Qed.

(** *** Loading, on every tag and store *)

(** [load], evaluated: the three ways a tag can stand in the store. *)
Lemma load_eval (tag : string) (w : World) :
  load tag w =
    match model_store w !! tag with
    | None => (Raise (NotFound tag), w)
    | Some info =>
        if String.eqb (info_module info) __name__
        then joblib_load
               (os_path_join (info_path info) (SAVE_NAMESPACE ++ ".pkl")) w
        else (Raise (ModuleMismatch tag (info_module info)), w)
    end.
Proof.
  destruct (model_store w !! tag) as [info |] eqn:Hget.
  - destruct (String.eqb_spec (info_module info) __name__) as [He | Hne].
    + apply load_match; assumption.
    + apply load_mismatch; assumption.
  - unfold load. py_run. unfold _get_model_info, model_store_get.
    unfold bind at 1. rewrite Hget. reflexivity.
Qed.

(** X4. [load] returns a model exactly when the tag is in the store, was
    saved by this adapter, and the resolved file holds a serialized
    model; the model returned is the one in the file, and the only trace
    left is that one deserialization. *)
Theorem load_returns_iff (tag : string) (m : Predictor) (w w' : World) :
  load tag w = (Ok m, w') <->
  exists info,
    model_store w !! tag = Some info /\
    info_module info = __name__ /\
    fs w !! os_path_join (info_path info) (SAVE_NAMESPACE ++ ".pkl")
      = Some (Pickled m) /\
    w' = log (EvLoad (os_path_join (info_path info) (SAVE_NAMESPACE ++ ".pkl"))) w.
Proof.
  rewrite load_eval. split.
  - destruct (model_store w !! tag) as [info |]; [| discriminate].
    destruct (String.eqb_spec (info_module info) __name__) as [He | Hne];
      [| discriminate].
    unfold joblib_load.
    destruct (fs w !! _) as [[m' |] |] eqn:Hf; try discriminate.
    intros [= -> <-]. exists info. repeat split; assumption.
  - intros (info & -> & He & Hf & ->).
    apply String.eqb_eq in He. rewrite He.
    apply joblib_load_pickled. exact Hf.
Qed.


(** *** Building a runner *)

Lemma load_runner_eval (tag : string) (quota : ResourceQuota)
    (options : BatchOptions) (w : World) :
  load_runner tag quota options w =
    match model_store w !! tag with
    | None => (Raise (NotFound tag), w)
    | Some info =>
        if String.eqb (info_module info) __name__
        then
          match round (cpu quota) with
          | Ok n =>
              (Ok {| base := Runner_init tag quota options;
                     _model_info := info;
                     _model_file :=
                       os_path_join (info_path info) (SAVE_NAMESPACE ++ ".pkl");
                     _parallel_ctx :=
                       {| old_backend_and_jobs := backend_and_jobs w;
                          new_backend_and_jobs := ("threading", n) |};
                     _model := None |},
               set_backend_and_jobs (Some ("threading", n)) w)
          | Raise e => (Raise e, w)
          end
        else (Raise (ModuleMismatch tag (info_module info)), w)
    end.
Proof.
  unfold load_runner, __init__. py_run.
  destruct (model_store w !! tag) as [info |] eqn:Hget.
  - destruct (String.eqb_spec (info_module info) __name__) as [He | Hne].
    + rewrite (get_model_info_match tag info w Hget He).
      unfold num_concurrency_per_replica, int. cbn [Runner_init resource_quota].
      destruct (round (cpu quota)) as [n | e]; [| reflexivity].
      unfold parallel_backend.
      change (existsb (String.eqb "threading") BACKENDS) with true.
      reflexivity.
    + rewrite (get_model_info_mismatch tag info w Hget Hne). reflexivity.
  - unfold _get_model_info, model_store_get. unfold bind at 1.
    rewrite Hget. reflexivity.
Qed.

(** X6. An unknown tag fails fast: [load] and [load_runner] both raise
    the store's NotFound and leave the world untouched, whatever the
    quota. *)
Theorem unknown_tag_fails_fast (tag : string) (w : World) :
  model_store w !! tag = None ->
  load tag w = (Raise (NotFound tag), w) /\
  forall quota options,
    load_runner tag quota options w = (Raise (NotFound tag), w).
Proof.
  intros Hget. split.
  - rewrite load_eval, Hget. reflexivity.
  - intros quota options. rewrite load_runner_eval, Hget. reflexivity.
Qed.

(** X7. For a tag this adapter saved and a finite CPU count,
    [load_runner] returns a runner bound to the stored ModelInfo and the
    resolved file, with no model yet; it reads no file, and its one
    effect on the world is to make ("threading", round(cpu)) joblib's
    active backend. *)
Theorem load_runner_builds (tag : string) (quota : ResourceQuota)
    (options : BatchOptions) (info : ModelInfo) (n : Z) (w : World) :
  model_store w !! tag = Some info ->
  info_module info = __name__ ->
  round (cpu quota) = Ok n ->
  exists self,
    load_runner tag quota options w =
      (Ok self, set_backend_and_jobs (Some ("threading", n)) w) /\
    resource_quota self = quota /\
    batch_options self = options /\
    _model_info self = info /\
    _model_file self =
      os_path_join (info_path info) (SAVE_NAMESPACE ++ ".pkl") /\
    _model self = None /\
    num_concurrency_per_replica self = Ok n /\
    _parallel_ctx self =
      {| old_backend_and_jobs := backend_and_jobs w;
         new_backend_and_jobs := ("threading", n) |}.
Proof.
  intros Hget He Hn. rewrite load_runner_eval, Hget.
  apply String.eqb_eq in He. rewrite He, Hn.
  eexists. split; [reflexivity |]. cbn.
  repeat split. unfold num_concurrency_per_replica, int. cbn. rewrite Hn.
  reflexivity.
Qed.

(** X8. [load_runner] succeeds exactly when the tag resolves to an
    artifact of this adapter and the CPU count is finite; when it fails
    it has changed nothing, not even the active backend. *)
Theorem load_runner_succeeds_iff (tag : string) (quota : ResourceQuota)
    (options : BatchOptions) (w : World) :
  ((exists self w', load_runner tag quota options w = (Ok self, w')) <->
   (exists info, model_store w !! tag = Some info /\
                 info_module info = __name__) /\
   is_finite (cpu quota) = true) /\
  (forall e w', load_runner tag quota options w = (Raise e, w') -> w' = w).
Proof.
  rewrite load_runner_eval. split; [split |].
  - intros (self & w' & H).
    destruct (model_store w !! tag) as [info |]; [| discriminate].
    destruct (String.eqb_spec (info_module info) __name__) as [He | Hne];
      [| discriminate].
    split; [exists info; split; [reflexivity | exact He] |].
    destruct (cpu quota); cbn in H |- *; try discriminate; reflexivity.
  - intros [(info & -> & He) Hfin].
    apply String.eqb_eq in He. rewrite He.
    destruct (cpu quota) as [s | s | | s m e]; try discriminate;
      cbn [round]; do 2 eexists; reflexivity.
  - intros e w'.
    destruct (model_store w !! tag) as [info |]; [| intros [= _ <-]; reflexivity].
    destruct (String.eqb (info_module info) __name__);
      [| intros [= _ <-]; reflexivity].
    destruct (round (cpu quota)); [discriminate | intros [= _ <-]; reflexivity].
Qed.

(** X9. The runner [load_runner] returns depends on exactly one model:
    [required_models] is the one tag recorded in the ModelInfo the store
    resolved, which is the tag asked for when the store files each
    ModelInfo under its own tag. *)
Theorem required_models_of_loaded_runner (tag : string)
    (quota : ResourceQuota) (options : BatchOptions)
    (w : World) (self : _SklearnRunner) (w' : World) :
  load_runner tag quota options w = (Ok self, w') ->
  exists info,
    model_store w !! tag = Some info /\
    required_models self = [info_tag info] /\
    (info_tag info = tag -> required_models self = [tag]).
Proof.
  rewrite load_runner_eval.
  destruct (model_store w !! tag) as [info |]; [| discriminate].
  destruct (String.eqb (info_module info) __name__); [| discriminate].
  destruct (round (cpu quota)); [| discriminate].
  intros [= <- _]. exists info. unfold required_models. cbn.
  repeat split. intros ->. reflexivity.
Qed.

(** *** Batches, on every outcome *)

(** A caller that sends batches one after the other and keeps each
    outcome, raised or returned. *)
Fixpoint run_batches (self : _SklearnRunner) (batches : list (list Row))
    (w : World) : list (result (option (list Label))) * World :=
  match batches with
  | [] => ([], w)
  | x :: rest =>
      let first := _run_batch self x w in
      let others := run_batches self rest (snd first) in
      (fst first :: fst others, snd others)
  end.

Lemma run_batch_not_ready (self : _SklearnRunner) (x : list Row) (w : World) :
  _model self = None ->
  _run_batch self x w =
    (Raise (AttributeError "_model"), snd (unregister (_parallel_ctx self) w)).
Proof.
  intros Hm. unfold _run_batch, with_return, parallel_backend_cm.
  cbn [cm_enter cm_exit]. rewrite Hm. py_run.
  destruct (unregister_restores (_parallel_ctx self) w) as (w' & Hu & _).
  rewrite Hu. reflexivity.
Qed.

(** X10. A batch sent to a replica that was never set up raises
    AttributeError for [_model]: no inference runs, and the scope is
    still left, the backend of before the runner was built being active
    afterwards. *)
Theorem run_batch_without_setup (self : _SklearnRunner) (x : list Row)
    (w : World) :
  _model self = None ->
  exists w',
    _run_batch self x w = (Raise (AttributeError "_model"), w') /\
    trace w' = trace w /\
    backend_and_jobs w' = old_backend_and_jobs (_parallel_ctx self).
Proof.
  intros Hm. rewrite (run_batch_not_ready self x w Hm).
  destruct (unregister_restores (_parallel_ctx self) w) as (w' & Hu & Hb & Ht & _).
  rewrite Hu. exists w'. cbn [snd]. auto.
Qed.

(** X11. When the model's [predict] raises, [_run_batch] raises the same
    exception: the scope does not swallow it, and is left all the same. *)
Theorem run_batch_propagates_predict_failure (self : _SklearnRunner)
    (m : Predictor) (x : list Row) (e : exn) (w : World) :
  _model self = Some m ->
  predict m x = Raise e ->
  exists w',
    _run_batch self x w = (Raise e, w') /\
    trace w' = (trace w ++ [EvPredict (length x) (backend_and_jobs w)])%list /\
    backend_and_jobs w' = old_backend_and_jobs (_parallel_ctx self).
Proof.
  intros Hm He.
  destruct (run_batch_ready self m x w Hm) as (w' & Hr & Ht & Hb).
  rewrite He in Hr. exists w'. auto.
Qed.

Lemma run_batch_leaves (self : _SklearnRunner) (x : list Row) (w : World) :
  let w' := snd (_run_batch self x w) in
  backend_and_jobs w' = old_backend_and_jobs (_parallel_ctx self) /\
  fs w' = fs w /\ model_store w' = model_store w /\
  count_loads (trace w') = count_loads (trace w).
Proof.
  cbv zeta. destruct (_model self) as [m |] eqn:Hm.
  - unfold _run_batch, with_return, parallel_backend_cm.
    cbn [cm_enter cm_exit]. rewrite Hm. unfold call_predict. py_run.
    set (w1 := log _ w).
    destruct (unregister_restores (_parallel_ctx self) w1)
      as (w2 & Hu & Hb & Ht & Hf & Hs).
    rewrite Hu.
    assert (Hc : count_loads (trace w2) = count_loads (trace w)).
    { rewrite Ht. unfold w1, log. cbn [trace].
      generalize (trace w). intros t.
      induction t as [| [f | f | k b] t IH]; cbn; congruence. }
    destruct (predict m x); cbn [snd]; auto.
  - rewrite (run_batch_not_ready self x w Hm). cbn [snd].
    destruct (unregister_restores (_parallel_ctx self) w)
      as (w2 & Hu & Hb & Ht & Hf & Hs).
    rewrite Hu. cbn [snd]. rewrite Ht. auto.
Qed.

(** X12. Whatever the input, the replica's state and the outcome,
    [_run_batch] leaves the scope on its way out (the backend of before
    the runner was built is active afterwards), writes no file, touches
    no tag and deserializes nothing. *)
Theorem run_batch_footprint (self : _SklearnRunner) (x : list Row) (w : World) :
  let w' := snd (_run_batch self x w) in
  backend_and_jobs w' = old_backend_and_jobs (_parallel_ctx self) /\
  fs w' = fs w /\ model_store w' = model_store w /\
  count_loads (trace w') = count_loads (trace w).
Proof. exact (run_batch_leaves self x w). Qed.

(** *** Threads *)

(** joblib keeps the active backend in a [threading.local]: every thread
    has its own, and what one thread activates no other thread sees.  A
    process is what all threads share (files, store, calls made) and the
    backend of each thread; a [World] is the view of one of them. *)
Record Process : Type := {
  shared : World;
  backends : gmap nat (string * Z)
}.

Definition view (t : nat) (p : Process) : World :=
  set_backend_and_jobs (backends p !! t) (shared p).

Definition commit (t : nat) (w : World) (p : Process) : Process :=
  {| shared := set_backend_and_jobs None w;
     backends :=
       match backend_and_jobs w with
       | Some b => <[t := b]> (backends p)
       | None => delete t (backends p)
       end |}.

(** Code run by thread [t]. *)
Definition in_thread {A} (t : nat) (m : M World A) : M Process A :=
  fun p =>
    let r := m (view t p) in
    (fst r, commit t (snd r) p).

(** X13. The budget is active in the thread that built the runner and in
    no other.  A ready replica's first batch, sent from thread t', is
    inferred under ("threading", num_concurrency_per_replica) when t' is
    the constructing thread and under the backend t' had of its own
    otherwise; either way t' is left with the backend the constructing
    thread had before construction. *)
Theorem first_batch_inside_scope (tag : string) (quota : ResourceQuota)
    (options : BatchOptions) (t : nat) (p : Process)
    (self : _SklearnRunner) (p1 : Process) (m : Predictor) (x : list Row) :
  in_thread t (load_runner tag quota options) p = (Ok self, p1) ->
  exists n,
    num_concurrency_per_replica self = Ok n /\
    backends p1 !! t = Some ("threading", n) /\
    forall t' : nat,
      let p2 := snd (in_thread t' (_run_batch (set__model (Some m) self) x) p1) in
      trace (shared p2) =
        (trace (shared p) ++
           [EvPredict (length x)
              (if decide (t = t') then Some ("threading", n)
               else backends p !! t')])%list /\
      backends p2 !! t' = backends p !! t.
Proof.
  unfold in_thread at 1. rewrite load_runner_eval.
  change (model_store (view t p)) with (model_store (shared p)).
  destruct (model_store (shared p) !! tag) as [info |]; [| discriminate].
  destruct (String.eqb (info_module info) __name__); [| discriminate].
  destruct (round (cpu quota)) as [n |] eqn:Hn; [| discriminate].
  cbn [fst snd]. intros [= <- <-].
  exists n. split; [| split].
  - unfold num_concurrency_per_replica, int. cbn. rewrite Hn. reflexivity.
  - cbn. apply lookup_insert_eq.
  - intros t'. cbv zeta. unfold in_thread. cbn [snd].
    match goal with |- context [_run_batch ?s x ?w0] =>
      destruct (run_batch_ready s m x w0 eq_refl) as (w2 & Hr & Ht & Hb);
      rewrite Hr end.
    cbn [snd]. split.
    + cbn [commit shared set_backend_and_jobs trace]. rewrite Ht. cbn.
      rewrite lookup_insert. reflexivity.
    + cbn [commit backends]. rewrite Hb. cbn.
      destruct (backends p !! t) as [b |].
      * apply lookup_insert_eq.
      * apply lookup_delete_eq.
Qed.

Lemma run_batches_trace (self : _SklearnRunner) (m : Predictor)
    (x : list Row) (rest : list (list Row)) (w : World) :
  _model self = Some m ->
  trace (snd (run_batches self (x :: rest) w)) =
    (trace w ++
       EvPredict (length x) (backend_and_jobs w) ::
       map (fun x' => EvPredict (length x')
                        (old_backend_and_jobs (_parallel_ctx self))) rest)%list.
Proof.
  intros Hm. revert x w.
  induction rest as [| x' rest IH]; intros x w.
  - cbn [run_batches snd map].
    destruct (run_batch_ready self m x w Hm) as (w' & Hr & Ht & _).
    rewrite Hr. exact Ht.
  - change (run_batches self (x :: x' :: rest) w)
      with (fst (_run_batch self x w)
              :: fst (run_batches self (x' :: rest) (snd (_run_batch self x w))),
            snd (run_batches self (x' :: rest) (snd (_run_batch self x w)))).
    cbn [snd].
    destruct (run_batch_ready self m x w Hm) as (w' & Hr & Ht & Hb).
    rewrite Hr. cbn [snd]. rewrite IH, Ht, Hb, <- app_assoc. reflexivity.
Qed.

(** X14. Of any run of batches sent one after the other to a ready
    replica, the first is inferred under the backend active when it
    comes and every later one under the backend of before the runner was
    built; a later batch is inferred under the runner's own pair only if
    that very pair was already active before the runner was built. *)
Theorem later_batches_outside_scope (self : _SklearnRunner) (m : Predictor)
    (x : list Row) (rest : list (list Row)) (w : World) :
  _model self = Some m ->
  let later :=
    map (fun x' => EvPredict (length x')
                     (old_backend_and_jobs (_parallel_ctx self))) rest in
  trace (snd (run_batches self (x :: rest) w)) =
    (trace w ++ EvPredict (length x) (backend_and_jobs w) :: later)%list /\
  (forall k : nat,
     In (EvPredict k (Some (new_backend_and_jobs (_parallel_ctx self)))) later ->
     old_backend_and_jobs (_parallel_ctx self)
       = Some (new_backend_and_jobs (_parallel_ctx self))).
Proof.
  intros Hm. cbv zeta. split.
  - exact (run_batches_trace self m x rest w Hm).
  - intros k Hin. apply in_map_iff in Hin.
    destruct Hin as (x' & Hx & _). congruence.
Qed.

(** X15. Scopes of two runners nest by construction order, not by call:
    a runner built while another runner's budget is active remembers
    that budget, and puts it back when its own first batch ends. *)
Theorem second_runner_restores_first_budget (tag_a tag_b : string)
    (quota_a quota_b : ResourceQuota) (options_a options_b : BatchOptions)
    (w w1 w2 : World) (a b : _SklearnRunner) (m : Predictor) (x : list Row) :
  load_runner tag_a quota_a options_a w = (Ok a, w1) ->
  load_runner tag_b quota_b options_b w1 = (Ok b, w2) ->
  exists n_a,
    num_concurrency_per_replica a = Ok n_a /\
    backend_and_jobs (snd (_run_batch (set__model (Some m) b) x w2))
      = Some ("threading", n_a).
Proof.
  intros Ha Hb.
  rewrite load_runner_eval in Ha.
  destruct (model_store w !! tag_a) as [info_a |]; [| discriminate].
  destruct (String.eqb (info_module info_a) __name__); [| discriminate].
  destruct (round (cpu quota_a)) as [n_a |] eqn:Hna; [| discriminate].
  injection Ha as <- <-.
  rewrite load_runner_eval in Hb. cbn [model_store set_backend_and_jobs] in Hb.
  destruct (model_store w !! tag_b) as [info_b |]; [| discriminate].
  destruct (String.eqb (info_module info_b) __name__); [| discriminate].
  destruct (round (cpu quota_b)) as [n_b |]; [| discriminate].
  injection Hb as <- <-.
  exists n_a. split.
  - unfold num_concurrency_per_replica, int. cbn. rewrite Hna. reflexivity.
  - match goal with |- context [_run_batch ?s x ?w0] =>
      destruct (run_batch_leaves s x w0) as [H _] end.
    rewrite H. reflexivity.
Qed.

(** *** Setting up, on every quota *)

(** Whether [l[i]] exists, negative indices counting from the end. *)
Definition index_in_range {A} (l : list A) (i : Z) : bool :=
  (- Z.of_nat (length l) <=? i) && (i <? Z.of_nat (length l)).

Lemma getitem_in_range {A} (l : list A) (i : Z) :
  index_in_range l i = true -> exists a, getitem l i = Ok a.
Proof.
  unfold index_in_range, getitem. cbv zeta. intros H.
  apply andb_true_iff in H. destruct H as [H1 H2].
  apply Z.leb_le in H1. apply Z.ltb_lt in H2.
  set (len := Z.of_nat (length l)) in *.
  set (j := if i <? 0 then i + len else i).
  assert (Hj : 0 <= j < len).
  { unfold j. destruct (Z.ltb_spec i 0); lia. }
  destruct (Z.ltb_spec j 0); [lia |].
  destruct (Z.leb_spec len j); [lia |]. cbn [orb].
  destruct (nth_error l (Z.to_nat j)) as [a |] eqn:Hn; [eauto |].
  apply nth_error_None in Hn. unfold len in Hj. lia.
Qed.

Lemma getitem_out_of_range {A} (l : list A) (i : Z) :
  index_in_range l i = false -> getitem l i = Raise IndexError.
Proof.
  unfold index_in_range, getitem. cbv zeta. intros H.
  apply andb_false_iff in H.
  set (len := Z.of_nat (length l)) in *.
  assert (Hlen : 0 <= len) by (unfold len; lia).
  set (j := if i <? 0 then i + len else i).
  assert (Hj : j < 0 \/ len <= j).
  { unfold j. destruct H as [H | H].
    - apply Z.leb_gt in H. destruct (Z.ltb_spec i 0); lia.
    - apply Z.ltb_ge in H. destruct (Z.ltb_spec i 0); lia. }
  destruct (Z.ltb_spec j 0); [reflexivity |].
  destruct (Z.leb_spec len j); [reflexivity | lia].
Qed.

(** X16. [_setup] never sets a replica up. It raises IndexError when the
    replica's id does not index the quota's device list and NameError
    for [model_file] when it does; either way the codec is not called and
    the world is as it was. *)
Theorem setup_outcome (self : _SklearnRunner) (w : World) :
  _setup self w =
    (Raise (if index_in_range (gpus (resource_quota self)) (replica_id self)
            then NameError "model_file" else IndexError),
     w).
Proof.
  unfold _setup.
  destruct (index_in_range (gpus (resource_quota self)) (replica_id self)) eqn:Hr.
  - destruct (getitem_in_range _ _ Hr) as [g Hg]. rewrite Hg. reflexivity.
  - rewrite (getitem_out_of_range _ _ Hr). reflexivity.
Qed.

(** *** The registration scope, with a context supplied *)

Lemma save_registered_eval (name : string) (model : Predictor)
    (metadata : option Metadata) (context : gmap string string) (w : World) :
  let tag := new_tag (model_store w) name in
  let model_file := os_path_join (model_path tag) (SAVE_NAMESPACE ++ ".pkl") in
  save_registered name model metadata context w =
    if picklable model
    then (Ok (Some tag),
          set_model_store
            (<[tag := {| info_tag := tag; info_module := __name__;
                         info_path := model_path tag;
                         info_metadata := metadata;
                         info_context := context |}]> (model_store w))
            (set_fs (<[model_file := Pickled model]> (fs w))
               (log (EvDump model_file) w)))
    else (Raise (dump_error model),
          set_fs (<[model_file := Truncated]> (fs w))
            (log (EvDump model_file) w)).
Proof.
  cbv zeta. unfold save_registered. py_run.
  unfold with_return, register; cbn [cm_enter cm_exit ctx_path ctx_tag].
  py_run. unfold joblib_dump. destruct (picklable model); reflexivity.
Qed.

(** X17. What the scope registers is what this adapter resolves and
    loads: after it returns a tag, [_get_model_info] on that tag gives the
    metadata and framework context handed in and the file the model was
    dumped to, and [load] returns the model. *)
Theorem registered_model_loads_back (name : string) (model : Predictor)
    (metadata : option Metadata) (context : gmap string string) (w : World) :
  picklable model = true ->
  exists tag info model_file w1,
    save_registered name model metadata context w = (Ok (Some tag), w1) /\
    _get_model_info tag w1 = (Ok (info, model_file), w1) /\
    info_module info = __name__ /\
    info_metadata info = metadata /\
    info_context info = context /\
    fs w1 !! model_file = Some (Pickled model) /\
    load tag w1 = (Ok model, log (EvLoad model_file) w1).
Proof.
  intros Hp.
  pose proof (save_registered_eval name model metadata context w) as Hs.
  cbv zeta in Hs. rewrite Hp in Hs.
  set (tag := new_tag (model_store w) name) in *.
  set (file := os_path_join (model_path tag) (SAVE_NAMESPACE ++ ".pkl")) in *.
  set (info := {| info_tag := tag; info_module := __name__;
                  info_path := model_path tag; info_metadata := metadata;
                  info_context := context |}) in *.
  match type of Hs with _ = (_, ?w0) => set (w1 := w0) in * end.
  assert (Hget : model_store w1 !! tag = Some info) by apply lookup_insert_eq.
  assert (Hfile : fs w1 !! file = Some (Pickled model))
    by apply lookup_insert_eq.
  exists tag, info, file, w1.
  split; [exact Hs |].
  split; [exact (get_model_info_match tag info w1 Hget eq_refl) |].
  do 3 (split; [reflexivity |]).
  split; [exact Hfile |].
  rewrite (load_match tag info w1 Hget eq_refl).
  apply joblib_load_pickled. exact Hfile.
Qed.

(** X18. The scope touches one tag and one file: whether the dump
    succeeds or fails, every other tag resolves as before, every other
    file holds what it held, the active backend is unchanged and nothing
    is deserialized. *)
Theorem registration_touches_one_tag_one_file (name : string)
    (model : Predictor) (metadata : option Metadata)
    (context : gmap string string) (w : World) :
  let tag := new_tag (model_store w) name in
  let model_file := os_path_join (model_path tag) (SAVE_NAMESPACE ++ ".pkl") in
  let w' := snd (save_registered name model metadata context w) in
  (forall t, t <> tag -> model_store w' !! t = model_store w !! t) /\
  (forall f, f <> model_file -> fs w' !! f = fs w !! f) /\
  backend_and_jobs w' = backend_and_jobs w /\
  trace w' = (trace w ++ [EvDump model_file])%list.
Proof.
  cbv zeta.
  pose proof (save_registered_eval name model metadata context w) as Hs.
  cbv zeta in Hs. rewrite Hs.
  destruct (picklable model); cbn [snd]; cbn.
  - repeat split.
    + intros t Ht. apply lookup_insert_ne. congruence.
    + intros f Hf. apply lookup_insert_ne. congruence.
  - repeat split.
    intros f Hf. apply lookup_insert_ne. congruence.
Qed.


(** What the store hands out to a new registration: a tag it has not
    committed, and a destination at which no committed artifact lives. *)
Definition fresh_allocation (name : string) (w : World) : Prop :=
  model_store w !! new_tag (model_store w) name = None /\
  forall t i,
    model_store w !! t = Some i ->
    os_path_join (info_path i) (SAVE_NAMESPACE ++ ".pkl") <>
    os_path_join (model_path (new_tag (model_store w) name))
      (SAVE_NAMESPACE ++ ".pkl").

(** C6. When the codec's dump fails inside the registration scope, on a
    tag and destination the store newly handed out, the scope lets out
    the very exception the dump raised and the store is as if nothing had
    been saved: its committed tags are what they were, the new tag is not
    among them, the artifact of every committed tag is untouched (none
    points at the truncated file), and [load] answers on every tag as it
    did before. *)
Theorem failed_dump_commits_nothing (name : string) (model : Predictor)
    (metadata : option Metadata) (context : gmap string string) (w : World) :
  picklable model = false ->
  fresh_allocation name w ->
  exists w',
    save_registered name model metadata context w
      = (Raise (dump_error model), w') /\
    model_store w' = model_store w /\
    model_store w' !! new_tag (model_store w) name = None /\
    (forall t i,
       model_store w' !! t = Some i ->
       fs w' !! os_path_join (info_path i) (SAVE_NAMESPACE ++ ".pkl")
         = fs w !! os_path_join (info_path i) (SAVE_NAMESPACE ++ ".pkl")) /\
    (forall t, fst (load t w') = fst (load t w)).
Proof.
  intros Hp [Hfresh Hdest].
  pose proof (save_registered_eval name model metadata context w) as Hs.
  cbv zeta in Hs. rewrite Hp in Hs.
  set (tag := new_tag (model_store w) name) in *.
  set (file := os_path_join (model_path tag) (SAVE_NAMESPACE ++ ".pkl")) in *.
  match type of Hs with _ = (_, ?w0) => set (w' := w0) in * end.
  assert (Hstore : model_store w' = model_store w) by reflexivity.
  assert (Hfiles : forall t i, model_store w !! t = Some i ->
            fs w' !! os_path_join (info_path i) (SAVE_NAMESPACE ++ ".pkl")
              = fs w !! os_path_join (info_path i) (SAVE_NAMESPACE ++ ".pkl")).
  { intros t i Hi. unfold w'. cbn [fs set_fs log].
    apply lookup_insert_ne. intros E. exact (Hdest t i Hi (eq_sym E)). }
  exists w'. split; [exact Hs |]. split; [exact Hstore |].
  split; [rewrite Hstore; exact Hfresh |].
  split; [intros t i Hi; rewrite Hstore in Hi; exact (Hfiles t i Hi) |].
  intros t. rewrite !load_eval, Hstore.
  destruct (model_store w !! t) as [i |] eqn:Hi; [| reflexivity].
  destruct (String.eqb (info_module i) __name__); [| reflexivity].
  unfold joblib_load. rewrite (Hfiles t i Hi).
  destruct (fs w !! _) as [[m' |] |]; reflexivity.
Qed.

(** *** Importing the module *)

(** What the interpreter can import: which modules exist, and which
    names a module offers to [from m import n]. *)
Record interpreter : Type := {
  importable : string -> bool;
  provides : string -> string -> bool
}.

(** [import a.b.c] imports [a], then [a.b], then [a.b.c]. *)
Fixpoint packages_from (parent : string) (dotted : list string) : list string :=
  match dotted with
  | [] => []
  | p :: rest =>
      let q := if String.eqb parent "" then p else parent ++ "." ++ p in
      q :: packages_from q rest
  end.

(** One binding statement: the names it binds, or [None] for ImportError. *)
Definition exec_import (py : interpreter) (s : stmt)
  : option (list (string * pyobj)) :=
  match s with
  | Import dotted _ =>
      if forallb (importable py) (packages_from "" dotted)
      then Some (binds s) else None
  | FromImport m names =>
      if importable py m && forallb (provides py m) names
      then Some (binds s) else None
  | Bind _ => Some (binds s)
  end.

Fixpoint exec_imports (py : interpreter) (body : list stmt)
    (ns : list (string * pyobj)) : option (list (string * pyobj)) :=
  match body with
  | [] => Some ns
  | s :: rest =>
      match exec_import py s with
      | Some b => exec_imports py rest (rev b ++ ns)%list
      | None => None
      end
  end.

(** A top-level statement, or lines 14 to 21: imports under
    [try: ... except ImportError: raise MissingDependencyException(msg)]. *)
Inductive block : Type :=
| Plain (s : stmt)
| TryImports (body : list stmt) (message : string).

Definition stmts_of (b : block) : list stmt :=
  match b with
  | Plain s => [s]
  | TryImports body _ => body
  end.

Inductive import_outcome : Type :=
| Imported (ns : list (string * pyobj))
| RaisedImportError
| RaisedMissingDependency (message : string).

Fixpoint exec_blocks (py : interpreter) (blocks : list block)
    (ns : list (string * pyobj)) : import_outcome :=
  match blocks with
  | [] => Imported ns
  | Plain s :: rest =>
      match exec_import py s with
      | Some b => exec_blocks py rest (rev b ++ ns)%list
      | None => RaisedImportError
      end
  | TryImports body message :: rest =>
      match exec_imports py body ns with
      | Some ns' => exec_blocks py rest ns'
      | None => RaisedMissingDependency message
      end
  end.

(** The module, top to bottom. *)
Definition module_blocks : list block :=
  [ Plain (Import ["os"] None);
    Plain (Import ["typing"] (Some "t"));
    Plain (Import ["numpy"] (Some "np"));
    Plain (FromImport "simple_di" ["Provide"; "inject"]);
    Plain (FromImport "._internal.configuration.containers" ["BentoMLContainer"]);
    Plain (FromImport "._internal.models" ["MODEL_EXT"; "SAVE_NAMESPACE"]);
    Plain (FromImport "._internal.service.runner" ["Runner"]);
    Plain (FromImport ".exceptions"
             ["BentoMLException"; "MissingDependencyException"]);
    Plain (Bind "_MT");
    TryImports
      [ Import ["sklearn"; "externals"; "joblib"] (Some "joblib");
        FromImport "joblib" ["parallel_backend"] ]
      "sklearn is required in order to use bentoml.sklearn. Do `pip install sklearn`";
    Plain (Bind "_get_model_info");
    Plain (Bind "load");
    Plain (Bind "save");
    Plain (Bind "_SklearnRunner");
    Plain (Bind "load_runner") ].

Definition import_module (py : interpreter) : import_outcome :=
  exec_blocks py module_blocks [].

Lemma module_blocks_body : flat_map stmts_of module_blocks = module_body.
Proof. reflexivity. Qed.

Lemma exec_imports_namespace (py : interpreter) (body : list stmt)
    (ns ns' : list (string * pyobj)) :
  exec_imports py body ns = Some ns' ->
  ns' = (rev (flat_map binds body) ++ ns)%list.
Proof.
  revert ns. induction body as [| s rest IH]; intros ns; cbn [exec_imports].
  - intros [= <-]. reflexivity.
  - destruct (exec_import py s) as [b |] eqn:Hs; [| discriminate].
    assert (Hb : b = binds s).
    { destruct s as [dotted asname | m names | n]; unfold exec_import in Hs.
      - destruct (forallb _ _); [injection Hs as <-; reflexivity | discriminate].
      - destruct (_ && _); [injection Hs as <-; reflexivity | discriminate].
      - injection Hs as <-. reflexivity. }
    intros H. apply IH in H. subst.
    cbn [flat_map]. rewrite rev_app_distr, <- app_assoc. reflexivity.
Qed.

Lemma exec_blocks_namespace (py : interpreter) (blocks : list block)
    (ns ns' : list (string * pyobj)) :
  exec_blocks py blocks ns = Imported ns' ->
  ns' = (rev (flat_map binds (flat_map stmts_of blocks)) ++ ns)%list.
Proof.
  revert ns. induction blocks as [| [s | body message] rest IH]; intros ns;
    cbn [exec_blocks].
  - intros [= <-]. reflexivity.
  - destruct (exec_import py s) as [b |] eqn:Hs; [| discriminate].
    intros H. apply IH in H.
    assert (Hi : exec_imports py [s] ns = Some (rev b ++ ns)%list).
    { cbn [exec_imports]. rewrite Hs. reflexivity. }
    apply exec_imports_namespace in Hi. cbn [flat_map] in Hi.
    rewrite app_nil_r in Hi. rewrite Hi in H. subst.
    cbn [flat_map stmts_of]. cbn [app].
    change (binds s ++ flat_map binds (flat_map stmts_of rest))%list
      with (flat_map binds (s :: flat_map stmts_of rest)).
    cbn [flat_map]. rewrite rev_app_distr, <- app_assoc. reflexivity.
  - destruct (exec_imports py body ns) as [ns1 |] eqn:Hb; [| discriminate].
    intros H. apply IH in H. apply exec_imports_namespace in Hb. subst.
    cbn [flat_map stmts_of]. rewrite flat_map_app, rev_app_distr, <- app_assoc.
    reflexivity.
Qed.

(** X20. Whatever is installed, if the module imports at all its
    globals are the ones the adapter's functions run against: [joblib] and
    [parallel_backend] are bound, [sklearn] and [model_file] are not. *)
Theorem imported_namespace (py : interpreter) (ns : list (string * pyobj)) :
  import_module py = Imported ns ->
  (ns ++ module_attributes)%list = globals /\
  resolve (ns ++ module_attributes)%list "joblib"
    = Ok (ObjModule "sklearn.externals.joblib") /\
  resolve (ns ++ module_attributes)%list "parallel_backend"
    = Ok (ObjMember "joblib" "parallel_backend") /\
  resolve (ns ++ module_attributes)%list "sklearn"
    = Raise (NameError "sklearn") /\
  resolve (ns ++ module_attributes)%list "model_file"
    = Raise (NameError "model_file").
Proof.
  intros H. apply exec_blocks_namespace in H.
  rewrite module_blocks_body, app_nil_r in H. subst ns.
  repeat split; reflexivity.
Qed.


End Adapter.

(** ** The spec's scenario, on concrete data *)

Module Iris.

(** Rows of integer features, integer labels; the model sums a row. *)
Definition row : Type := list Z.
Definition label : Type := Z.
Definition metadata : Type := list (string * string).

Definition SAVE_NAMESPACE : string := "saved_model".
Definition package_version (q : string) : string := "1.0.2".
Definition model_path (tag : string) : string := "/bentoml/models/" ++ tag.

Definition sum_row (r : row) : label := fold_right Z.add 0 r.

Definition model : @Predictor row label :=
  {| predict := fun x => Ok (map sum_row x); picklable := true;
     dump_error := PicklingError |}.

(** A model the codec cannot serialize: it holds a lock. *)
Definition unpicklable : @Predictor row label :=
  {| predict := fun x => Ok (map sum_row x); picklable := false;
     dump_error := TypeError |}.

Definition info (module : string) : @ModelInfo metadata :=
  {| info_tag := "iris:v1"; info_module := module;
     info_path := model_path "iris:v1";
     info_metadata := Some [("acc", "0.97")];
     info_context := {[ "sklearn" := "1.0.2" ]} |}.

Definition model_file : string := "/bentoml/models/iris:v1/saved_model.pkl".

Definition empty_world : @World row label metadata :=
  {| fs := ∅; model_store := ∅; backend_and_jobs := None; trace := [] |}.

(** A store holding the tag, saved by the module named. *)
Definition world (module : string) : @World row label metadata :=
  {| fs := {[ model_file := Pickled model ]};
     model_store := {[ "iris:v1" := info module ]};
     backend_and_jobs := None; trace := [] |}.

(** 0.5, 2.0 and 2.5 as binary64 floats. *)
Definition cpu_0_5 : spec_float := S754_finite false 4503599627370496 (-53).
Definition cpu_2_0 : spec_float := S754_finite false 4503599627370496 (-51).
Definition cpu_2_5 : spec_float := S754_finite false 5629499534213120 (-51).

Definition quota (c : spec_float) (devices : list Z) : ResourceQuota :=
  {| cpu := c; gpus := devices |}.

Definition plain_runner (c : spec_float) (devices : list Z) : @Runner unit :=
  Runner_init "iris:v1" (quota c devices) tt.

(** The runner as [__init__] builds it in [world "bentoml.sklearn"],
    with [_model] as given. *)
Definition runner (c : spec_float) (devices : list Z) (n_jobs : Z)
    (m : option (@Predictor row label))
  : @_SklearnRunner row label metadata unit :=
  {| base := plain_runner c devices;
     _model_info := info "bentoml.sklearn";
     _model_file := model_file;
     _parallel_ctx := {| old_backend_and_jobs := None;
                         new_backend_and_jobs := ("threading", n_jobs) |};
     _model := m |}.

End Iris.

Example init_builds_runner :
  __init__ Iris.SAVE_NAMESPACE "iris:v1" (Iris.quota Iris.cpu_2_0 []) tt
    (Iris.world "bentoml.sklearn") =
  (Ok (Iris.runner Iris.cpu_2_0 [] 2 None),
   set_backend_and_jobs (Some ("threading", 2)) (Iris.world "bentoml.sklearn")).
Proof. vm_compute. reflexivity. Qed.

Example half_a_cpu_no_worker :
  num_concurrency_per_replica (Iris.plain_runner Iris.cpu_0_5 []) = Ok 0.
Proof. reflexivity. Qed.

Example two_and_a_half_cpus_two_workers :
  num_concurrency_per_replica (Iris.plain_runner Iris.cpu_2_5 []) = Ok 2.
Proof. reflexivity. Qed.

Lemma concurrency_plan_from_quota_witness :
  is_finite Iris.cpu_2_5 = true /\
  exists c n,
    float_value Iris.cpu_2_5 = Some c /\
    round Iris.cpu_2_5 = Ok n /\
    num_concurrency_per_replica (Iris.plain_runner Iris.cpu_2_5 []) = Ok n /\
    nearest_integer c n /\
    num_replica (Iris.plain_runner Iris.cpu_2_5 []) = 1.
Proof.
  split; [reflexivity |].
  apply (concurrency_plan_from_quota (Iris.plain_runner Iris.cpu_2_5 [])).
  reflexivity.
Defined.

Lemma concurrency_rounds_half_to_even_witness :
  float_value Iris.cpu_0_5 = Some (4503599627370496 # 9007199254740992) /\
  exists n,
    num_concurrency_per_replica (Iris.plain_runner Iris.cpu_0_5 []) = Ok n /\
    Z.even n = true /\ (n = 0 \/ n = 0 + 1) /\
    (0 = 0 -> n = 0) /\ (0 = 2 -> n = 2).
Proof.
  split; [reflexivity |].
  apply (concurrency_rounds_half_to_even
           (Iris.plain_runner Iris.cpu_0_5 [])
           (4503599627370496 # 9007199254740992) 0).
  - reflexivity.
  - vm_compute. reflexivity.
Defined.

Lemma load_checks_owning_module_witness :
  load Iris.SAVE_NAMESPACE "iris:v1" (Iris.world "bentoml.xgboost") =
    (Raise (ModuleMismatch "iris:v1" "bentoml.xgboost"),
     Iris.world "bentoml.xgboost") /\
  load Iris.SAVE_NAMESPACE "iris:v1" (Iris.world "bentoml.sklearn") =
    (Ok Iris.model, log (EvLoad Iris.model_file) (Iris.world "bentoml.sklearn")).
Proof.
  split.
  - apply (load_checks_owning_module Iris.SAVE_NAMESPACE "iris:v1"
             (Iris.info "bentoml.xgboost") (Iris.world "bentoml.xgboost")).
    + reflexivity.
    + discriminate.
  - apply (load_checks_owning_module Iris.SAVE_NAMESPACE "iris:v1"
             (Iris.info "bentoml.sklearn") (Iris.world "bentoml.sklearn")).
    + reflexivity.
    + reflexivity.
    + reflexivity.
Defined.

Lemma failed_dump_commits_nothing_witness :
  exists w',
    save_registered Iris.SAVE_NAMESPACE Iris.model_path "iris"
      Iris.unpicklable (Some [("acc", "0.97")]) {[ "sklearn" := "1.0.2" ]}
      (Iris.world "bentoml.sklearn") = (Raise TypeError, w') /\
    model_store w' = model_store (Iris.world "bentoml.sklearn") /\
    model_store w' !! new_tag (model_store (Iris.world "bentoml.sklearn")) "iris"
      = None /\
    (forall t i,
       model_store w' !! t = Some i ->
       fs w' !! os_path_join (info_path i) (Iris.SAVE_NAMESPACE ++ ".pkl")
         = fs (Iris.world "bentoml.sklearn")
             !! os_path_join (info_path i) (Iris.SAVE_NAMESPACE ++ ".pkl")) /\
    (forall t, fst (load Iris.SAVE_NAMESPACE t w')
               = fst (load Iris.SAVE_NAMESPACE t (Iris.world "bentoml.sklearn"))).
Proof.
  apply (failed_dump_commits_nothing Iris.SAVE_NAMESPACE Iris.model_path
           "iris" Iris.unpicklable (Some [("acc", "0.97")])
           {[ "sklearn" := "1.0.2" ]} (Iris.world "bentoml.sklearn")).
  - reflexivity.
  - split.
    + reflexivity.
    + intros t i Hi. unfold Iris.world in Hi. cbn [model_store] in Hi.
      apply lookup_singleton_Some in Hi.
      destruct Hi as [<- <-]. vm_compute. discriminate.
Defined.

Lemma setup_fails_without_gpus_witness :
  _setup (Iris.runner Iris.cpu_2_0 [] 2 None) (Iris.world "bentoml.sklearn") =
    (Raise IndexError, Iris.world "bentoml.sklearn").
Proof.
  apply (setup_fails_without_gpus (Iris.runner Iris.cpu_2_0 [] 2 None)).
  reflexivity.
Defined.

(** With a device in the quota the index succeeds and the next line
    fails on the unbound name. *)
Example setup_fails_with_a_gpu :
  _setup (Iris.runner Iris.cpu_2_0 [0] 2 None) (Iris.world "bentoml.sklearn") =
    (Raise (NameError "model_file"), Iris.world "bentoml.sklearn").
Proof. reflexivity. Qed.

Lemma run_batch_row_aligned_witness :
  exists y w',
    _run_batch (Iris.runner Iris.cpu_2_0 [] 2 (Some Iris.model))
      [[5; 3; 1; 0]; [6; 2; 4; 1]] (Iris.world "bentoml.sklearn") =
      (Ok (Some y), w') /\
    length y = length [[5; 3; 1; 0]; [6; 2; 4; 1]] /\
    forall i : nat, y !! i = Iris.sum_row <$> [[5; 3; 1; 0]; [6; 2; 4; 1]] !! i.
Proof.
  apply (run_batch_row_aligned (Iris.runner Iris.cpu_2_0 [] 2 (Some Iris.model))
           Iris.model Iris.sum_row).
  - reflexivity.
  - intros x. reflexivity.
  - simpl. lia.
Defined.

Lemma second_batch_outside_scope_witness :
  exists r1 w1 r2 w2,
    _run_batch (Iris.runner Iris.cpu_2_0 [] 2 (Some Iris.model)) [[5; 3; 1; 0]]
      (set_backend_and_jobs (Some ("threading", 2)) (Iris.world "bentoml.sklearn"))
      = (r1, w1) /\
    _run_batch (Iris.runner Iris.cpu_2_0 [] 2 (Some Iris.model)) [[6; 2; 4; 1]] w1
      = (r2, w2) /\
    trace w2 = [EvPredict 1 (Some ("threading", 2)); EvPredict 1 None].
Proof.
  apply (second_batch_outside_scope
           (Iris.runner Iris.cpu_2_0 [] 2 (Some Iris.model)) Iris.model
           [[5; 3; 1; 0]] [[6; 2; 4; 1]]
           (set_backend_and_jobs (Some ("threading", 2))
              (Iris.world "bentoml.sklearn"))).
  reflexivity.
Defined.

(** The whole life of a runner: built by [__init__] with two workers,
    made ready, called twice.  The second inference runs with no backend
    active. *)
Example two_batches_one_scope :
  (self <- __init__ Iris.SAVE_NAMESPACE "iris:v1" (Iris.quota Iris.cpu_2_0 []) tt ;;
   let ready := set__model (Some Iris.model) self in
   y1 <- _run_batch ready [[5; 3; 1; 0]] ;;
   y2 <- _run_batch ready [[6; 2; 4; 1]] ;;
   ret (y1, y2)) (Iris.world "bentoml.sklearn") =
  (Ok (Some [9], Some [13]),
   log (EvPredict 1 None)
     (log (EvPredict 1 (Some ("threading", 2))) (Iris.world "bentoml.sklearn"))).
Proof. vm_compute. reflexivity. Qed.

(** Two callers arrive at a replica that is not set up, and take turns. *)
Definition two_callers : list action :=
  [Arrive; Arrive; Move 0; Move 1; Move 0; Move 1; Move 0].

Definition two_callers_start
  : @system Iris.row Iris.label Iris.metadata unit :=
  ([], (Iris.world "bentoml.sklearn", Iris.runner Iris.cpu_2_0 [0] 2 None)).

Definition two_callers_end
  : @system Iris.row Iris.label Iris.metadata unit :=
  run_schedule two_callers two_callers_start.

Example two_callers_both_raise :
  two_callers_end =
    ([PcDone (Raise (NameError "model_file"));
      PcDone (Raise (NameError "model_file"))],
     snd two_callers_start).
Proof. reflexivity. Qed.

Lemma setup_deserializes_at_most_once_witness :
  (count_loads (trace (fst (snd two_callers_end)))
   <= count_loads (trace (Iris.world "bentoml.sklearn")) + 1)%nat /\
  _model (snd (snd two_callers_end)) = None.
Proof.
  apply (setup_deserializes_at_most_once
           (Iris.world "bentoml.sklearn") (Iris.runner Iris.cpu_2_0 [0] 2 None)
           (fst two_callers_end)).
  - reflexivity.
  - apply (run_schedule_steps two_callers two_callers_start).
Defined.

Example save_raises_on_iris :
  save Iris.SAVE_NAMESPACE Iris.package_version Iris.model_path "iris"
    Iris.model (Some [("acc", "0.97")]) Iris.empty_world =
  (Raise (NameError "sklearn"), Iris.empty_world).
Proof. reflexivity. Qed.

(** Were the context built, the scenario would go through: the tag is
    iris:v1 and the loaded model predicts as the saved one. *)
Example registration_scope_round_trip :
  (saved <- save_registered Iris.SAVE_NAMESPACE Iris.model_path "iris"
              Iris.model (Some [("acc", "0.97")]) {[ "sklearn" := "1.0.2" ]} ;;
   loaded <- load Iris.SAVE_NAMESPACE "iris:v1" ;;
   ret (saved, predict loaded [[5; 3; 1; 0]])) Iris.empty_world =
  (Ok (Some "iris:v1", predict Iris.model [[5; 3; 1; 0]]),
   log (EvLoad Iris.model_file)
     (set_model_store {[ "iris:v1" := Iris.info "bentoml.sklearn" ]}
        (set_fs {[ Iris.model_file := Pickled Iris.model ]}
           (log (EvDump Iris.model_file) Iris.empty_world)))).
Proof. vm_compute. reflexivity. Qed.

(** ** The further properties, on concrete data *)

Module More.

(** A model whose [predict] raises. *)
Definition broken : @Predictor Iris.row Iris.label :=
  {| predict := fun _ => Raise ValueError; picklable := true;
     dump_error := PicklingError |}.

Definition nan : spec_float := S754_nan.

(** The values of 0.5, 2.0 and 2.5. *)
Definition q_0_5 : Q := 4503599627370496 # 9007199254740992.
Definition q_2_0 : Q := 4503599627370496 # 2251799813685248.
Definition q_2_5 : Q := 5629499534213120 # 2251799813685248.

(** The world once a runner with two workers has been built. *)
Definition built : @World Iris.row Iris.label Iris.metadata :=
  set_backend_and_jobs (Some ("threading", 2)) (Iris.world "bentoml.sklearn").

(** Everything installed, every name offered. *)
Definition everything : interpreter :=
  {| importable := fun _ => true; provides := fun _ _ => true |}.

(** scikit-learn from 0.23 on: no [sklearn.externals.joblib]. *)
Definition recent_sklearn : interpreter :=
  {| importable := fun m => negb (String.eqb m "sklearn.externals.joblib");
     provides := fun _ _ => true |}.

(** A process in which no thread has a backend yet, and the same once
    thread 0 has built a runner with two workers. *)
Definition idle : @Process Iris.row Iris.label Iris.metadata :=
  {| shared := Iris.world "bentoml.sklearn"; backends := ∅ |}.

Definition built_by_0 : @Process Iris.row Iris.label Iris.metadata :=
  {| shared := Iris.world "bentoml.sklearn";
     backends := {[ 0%nat := ("threading", 2) ]} |}.

(** A store whose only tag is the one the modelled version scheme hands
    out next. *)
Definition crowded : @World Iris.row Iris.label Iris.metadata :=
  {| fs := {[ "/bentoml/models/iris:v2/saved_model.pkl" := Pickled Iris.model ]};
     model_store :=
       {[ "iris:v2" :=
            {| info_tag := "iris:v2"; info_module := "bentoml.sklearn";
               info_path := Iris.model_path "iris:v2";
               info_metadata := None; info_context := ∅ |} ]};
     backend_and_jobs := None; trace := [] |}.

End More.

Lemma concurrency_monotone_witness :
  num_concurrency_per_replica (Iris.plain_runner Iris.cpu_0_5 []) = Ok 0 /\
  num_concurrency_per_replica (Iris.plain_runner Iris.cpu_2_5 []) = Ok 2 /\
  0 <= 2.
Proof.
  split; [reflexivity |]. split; [reflexivity |].
  apply (concurrency_monotone (Iris.plain_runner Iris.cpu_0_5 [])
           (Iris.plain_runner Iris.cpu_2_5 []) More.q_0_5 More.q_2_5 0 2).
  - reflexivity.
  - reflexivity.
  - reflexivity.
  - reflexivity.
  - unfold Qle. vm_compute. discriminate.
Defined.

Lemma concurrency_zero_iff_witness :
  0 = 0 <-> (Qabs More.q_0_5 <= 1 # 2)%Q.
Proof.
  apply (concurrency_zero_iff (Iris.plain_runner Iris.cpu_0_5 []) More.q_0_5 0).
  - reflexivity.
  - reflexivity.
Defined.

Lemma concurrency_of_whole_cpus_witness :
  num_concurrency_per_replica (Iris.plain_runner Iris.cpu_2_0 []) = Ok 2.
Proof.
  apply (concurrency_of_whole_cpus (Iris.plain_runner Iris.cpu_2_0 []) More.q_2_0 2).
  - reflexivity.
  - vm_compute. reflexivity.
Defined.

Lemma unknown_tag_fails_fast_witness :
  load Iris.SAVE_NAMESPACE "iris:v1" Iris.empty_world =
    (Raise (NotFound "iris:v1"), Iris.empty_world) /\
  forall (quota : ResourceQuota) (options : unit),
    load_runner Iris.SAVE_NAMESPACE "iris:v1" quota options Iris.empty_world =
      (Raise (NotFound "iris:v1"), Iris.empty_world).
Proof.
  apply (unknown_tag_fails_fast (BatchOptions := unit)
           Iris.SAVE_NAMESPACE "iris:v1" Iris.empty_world).
  reflexivity.
Defined.

Lemma load_runner_builds_witness :
  exists self,
    load_runner Iris.SAVE_NAMESPACE "iris:v1" (Iris.quota Iris.cpu_2_0 []) tt
      (Iris.world "bentoml.sklearn") = (Ok self, More.built) /\
    resource_quota self = Iris.quota Iris.cpu_2_0 [] /\
    batch_options self = tt /\
    _model_info self = Iris.info "bentoml.sklearn" /\
    _model_file self =
      os_path_join (info_path (Iris.info "bentoml.sklearn"))
        (Iris.SAVE_NAMESPACE ++ ".pkl") /\
    _model self = None /\
    num_concurrency_per_replica self = Ok 2 /\
    _parallel_ctx self =
      {| old_backend_and_jobs := None;
         new_backend_and_jobs := ("threading", 2) |}.
Proof.
  apply (load_runner_builds Iris.SAVE_NAMESPACE "iris:v1"
           (Iris.quota Iris.cpu_2_0 []) tt (Iris.info "bentoml.sklearn") 2
           (Iris.world "bentoml.sklearn")).
  - reflexivity.
  - reflexivity.
  - reflexivity.
Defined.

Example load_runner_on_iris :
  load_runner Iris.SAVE_NAMESPACE "iris:v1" (Iris.quota Iris.cpu_2_0 []) tt
    (Iris.world "bentoml.sklearn") =
  (Ok (Iris.runner Iris.cpu_2_0 [] 2 None), More.built).
Proof. vm_compute. reflexivity. Qed.

(** A CPU count that is not a number: the tag resolves, the rounding
    raises, and no backend is activated. *)
Example load_runner_rejects_nan :
  load_runner Iris.SAVE_NAMESPACE "iris:v1" (Iris.quota More.nan []) tt
    (Iris.world "bentoml.sklearn") =
  (Raise ValueError, Iris.world "bentoml.sklearn").
Proof. vm_compute. reflexivity. Qed.

Lemma required_models_of_loaded_runner_witness :
  exists info,
    model_store (Iris.world "bentoml.sklearn") !! "iris:v1" = Some info /\
    required_models (Iris.runner Iris.cpu_2_0 [] 2 None) = [info_tag info] /\
    (info_tag info = "iris:v1" ->
     required_models (Iris.runner Iris.cpu_2_0 [] 2 None) = ["iris:v1"]).
Proof.
  apply (required_models_of_loaded_runner Iris.SAVE_NAMESPACE "iris:v1"
           (Iris.quota Iris.cpu_2_0 []) tt (Iris.world "bentoml.sklearn")
           (Iris.runner Iris.cpu_2_0 [] 2 None) More.built).
  vm_compute. reflexivity.
Defined.

Lemma run_batch_without_setup_witness :
  exists w',
    _run_batch (Iris.runner Iris.cpu_2_0 [] 2 None) [[5; 3; 1; 0]] More.built =
      (Raise (AttributeError "_model"), w') /\
    trace w' = trace More.built /\
    backend_and_jobs w' = None.
Proof.
  apply (run_batch_without_setup (Iris.runner Iris.cpu_2_0 [] 2 None)
           [[5; 3; 1; 0]] More.built).
  reflexivity.
Defined.

Lemma run_batch_propagates_predict_failure_witness :
  exists w',
    _run_batch (Iris.runner Iris.cpu_2_0 [] 2 (Some More.broken))
      [[5; 3; 1; 0]] More.built = (Raise ValueError, w') /\
    trace w' = [EvPredict 1 (Some ("threading", 2))] /\
    backend_and_jobs w' = None.
Proof.
  apply (run_batch_propagates_predict_failure
           (Iris.runner Iris.cpu_2_0 [] 2 (Some More.broken)) More.broken
           [[5; 3; 1; 0]] ValueError More.built).
  - reflexivity.
  - reflexivity.
Defined.

Example load_runner_in_thread_0 :
  in_thread 0 (load_runner Iris.SAVE_NAMESPACE "iris:v1"
                 (Iris.quota Iris.cpu_2_0 []) tt) More.idle =
  (Ok (Iris.runner Iris.cpu_2_0 [] 2 None), More.built_by_0).
Proof. vm_compute. reflexivity. Qed.

Lemma first_batch_inside_scope_witness :
  exists n,
    num_concurrency_per_replica (Iris.runner Iris.cpu_2_0 [] 2 None) = Ok n /\
    backends More.built_by_0 !! 0%nat = Some ("threading", n) /\
    forall t' : nat,
      let p2 :=
        snd (in_thread t'
               (_run_batch
                  (set__model (Some Iris.model)
                     (Iris.runner Iris.cpu_2_0 [] 2 None))
                  [[5; 3; 1; 0]]) More.built_by_0) in
      trace (shared p2) =
        (trace (shared More.idle) ++
           [EvPredict (length [[5; 3; 1; 0]])
              (if decide (0%nat = t') then Some ("threading", n)
               else backends More.idle !! t')])%list /\
      backends p2 !! t' = backends More.idle !! 0%nat.
Proof.
  apply (first_batch_inside_scope Iris.SAVE_NAMESPACE "iris:v1"
           (Iris.quota Iris.cpu_2_0 []) tt 0%nat More.idle
           (Iris.runner Iris.cpu_2_0 [] 2 None) More.built_by_0 Iris.model
           [[5; 3; 1; 0]]).
  vm_compute. reflexivity.
Defined.

(** The same first batch, sent from the constructing thread and from
    another one. *)
Example first_batch_from_the_constructing_thread :
  trace (shared (snd (in_thread 0
                        (_run_batch (Iris.runner Iris.cpu_2_0 [] 2 (Some Iris.model))
                           [[5; 3; 1; 0]]) More.built_by_0))) =
  [EvPredict 1 (Some ("threading", 2))].
Proof. vm_compute. reflexivity. Qed.

Example first_batch_from_another_thread :
  trace (shared (snd (in_thread 1
                        (_run_batch (Iris.runner Iris.cpu_2_0 [] 2 (Some Iris.model))
                           [[5; 3; 1; 0]]) More.built_by_0))) =
  [EvPredict 1 None].
Proof. vm_compute. reflexivity. Qed.

Lemma later_batches_outside_scope_witness :
  trace (snd (run_batches (Iris.runner Iris.cpu_2_0 [] 2 (Some Iris.model))
                [[[5; 3; 1; 0]]; [[6; 2; 4; 1]; [1; 1; 1; 1]]; []]
                More.built)) =
    [EvPredict 1 (Some ("threading", 2)); EvPredict 2 None; EvPredict 0 None] /\
  (forall k : nat,
     In (EvPredict k (Some ("threading", 2)))
        [EvPredict 2 None; EvPredict 0 None] ->
     @None (string * Z) = Some ("threading", 2)).
Proof.
  apply (later_batches_outside_scope
           (Iris.runner Iris.cpu_2_0 [] 2 (Some Iris.model)) Iris.model
           [[5; 3; 1; 0]] [[[6; 2; 4; 1]; [1; 1; 1; 1]]; []] More.built).
  reflexivity.
Defined.

(** A runner built while an equal budget was already active: its later
    batches run under that earlier, equal pair. *)
Example later_batches_under_an_equal_earlier_budget :
  trace (snd (run_batches
                {| base := Iris.plain_runner Iris.cpu_2_0 [];
                   _model_info := Iris.info "bentoml.sklearn";
                   _model_file := Iris.model_file;
                   _parallel_ctx :=
                     {| old_backend_and_jobs := Some ("threading", 2);
                        new_backend_and_jobs := ("threading", 2) |};
                   _model := Some Iris.model |}
                [[[5; 3; 1; 0]]; [[6; 2; 4; 1]]] More.built)) =
    [EvPredict 1 (Some ("threading", 2)); EvPredict 1 (Some ("threading", 2))].
Proof. vm_compute. reflexivity. Qed.

Lemma second_runner_restores_first_budget_witness :
  exists n_a,
    num_concurrency_per_replica (Iris.runner Iris.cpu_2_0 [] 2 None) = Ok n_a /\
    backend_and_jobs
      (snd (_run_batch
              (set__model (Some Iris.model)
                 {| base := Iris.plain_runner Iris.cpu_0_5 [];
                    _model_info := Iris.info "bentoml.sklearn";
                    _model_file := Iris.model_file;
                    _parallel_ctx :=
                      {| old_backend_and_jobs := Some ("threading", 2);
                         new_backend_and_jobs := ("threading", 0) |};
                    _model := None |})
              [[5; 3; 1; 0]]
              (set_backend_and_jobs (Some ("threading", 0)) More.built)))
      = Some ("threading", n_a).
Proof.
  apply (second_runner_restores_first_budget Iris.SAVE_NAMESPACE
           "iris:v1" "iris:v1"
           (Iris.quota Iris.cpu_2_0 []) (Iris.quota Iris.cpu_0_5 []) tt tt
           (Iris.world "bentoml.sklearn") More.built
           (set_backend_and_jobs (Some ("threading", 0)) More.built)).
  - vm_compute. reflexivity.
  - vm_compute. reflexivity.
Defined.

Lemma registered_model_loads_back_witness :
  exists tag info model_file w1,
    save_registered Iris.SAVE_NAMESPACE Iris.model_path "iris" Iris.model
      (Some [("acc", "0.97")]) {[ "sklearn" := "1.0.2" ]} Iris.empty_world
      = (Ok (Some tag), w1) /\
    _get_model_info Iris.SAVE_NAMESPACE tag w1 = (Ok (info, model_file), w1) /\
    info_module info = __name__ /\
    info_metadata info = Some [("acc", "0.97")] /\
    info_context info = {[ "sklearn" := "1.0.2" ]} /\
    fs w1 !! model_file = Some (Pickled Iris.model) /\
    load Iris.SAVE_NAMESPACE tag w1 = (Ok Iris.model, log (EvLoad model_file) w1).
Proof.
  apply (registered_model_loads_back Iris.SAVE_NAMESPACE Iris.model_path
           "iris" Iris.model (Some [("acc", "0.97")])
           {[ "sklearn" := "1.0.2" ]} Iris.empty_world).
  reflexivity.
Defined.


Example import_with_everything_installed :
  import_module More.everything = Imported (namespace module_body).
Proof. vm_compute. reflexivity. Qed.

Lemma imported_namespace_witness :
  (namespace module_body ++ module_attributes)%list = globals /\
  resolve (namespace module_body ++ module_attributes)%list "joblib"
    = Ok (ObjModule "sklearn.externals.joblib") /\
  resolve (namespace module_body ++ module_attributes)%list "parallel_backend"
    = Ok (ObjMember "joblib" "parallel_backend") /\
  resolve (namespace module_body ++ module_attributes)%list "sklearn"
    = Raise (NameError "sklearn") /\
  resolve (namespace module_body ++ module_attributes)%list "model_file"
    = Raise (NameError "model_file").
Proof.
  apply (imported_namespace More.everything (namespace module_body)).
  vm_compute. reflexivity.
Defined.

Example import_with_recent_sklearn :
  import_module More.recent_sklearn =
    RaisedMissingDependency
      "sklearn is required in order to use bentoml.sklearn. Do `pip install sklearn`".
Proof. vm_compute. reflexivity. Qed.


(** Why the allocation has to be new: where the store hands out a tag it
    has already committed, the failed dump truncates that tag's artifact
    and [load] on it stops working. *)
Example failed_dump_on_a_committed_tag :
  new_tag (model_store More.crowded) "iris" = "iris:v2" /\
  fst (load Iris.SAVE_NAMESPACE "iris:v2" More.crowded) = Ok Iris.model /\
  fst (load Iris.SAVE_NAMESPACE "iris:v2"
         (snd (save_registered Iris.SAVE_NAMESPACE Iris.model_path "iris"
                 Iris.unpicklable None ∅ More.crowded)))
    = Raise UnpicklingError.
Proof. vm_compute. repeat split. Qed.
